(** * LienOS front end: the API client, the add-lien form and the deadline cascade

    A shallow embedding of the JavaScript sources

    - [frontend/src/api/client.js] (class [ApiClient] and the module-level
      [mockData] store it mutates), and
    - [frontend/src/pages/AddLienPage.jsx] (the form validation),

    together with a model of the deadline sweep, whose code (the Python
    [DeadlineAlertAgent]) is not part of the sources at hand.

    JavaScript numbers are binary64 floats ([PrimFloat.float]); instants are
    integral millisecond counts ([Z]); objects with a fixed shape are records;
    the object used as a dictionary ([mockData.payments]) is a [gmap] of its
    own properties, read through the members every object inherits from
    [Object.prototype]. *)

From Stdlib Require Import ZArith Lia Bool List String Ascii DecimalString.
From Stdlib Require Import Floats.
From stdpp Require Import gmap strings list.

Local Open Scope string_scope.
Local Open Scope Z_scope.

(** ** JavaScript values and built-ins *)

Module JS.

(** A JavaScript value as [response.json()] may deliver it, plus [undefined].
    The fields of an object are kept in insertion order; the keys of an
    object are distinct. *)
#[warnings="-register-all"]
Inductive value : Type :=
| VUndefined
| VNull
| VBool (b : bool)
| VNum (x : float)
| VStr (s : string)
| VArr (xs : list value)
| VObj (fields : list (string * value)).

(** [fields[key]] for own properties. *)
Fixpoint lookup_field (key : string) (fields : list (string * value)) : value :=
  match fields with
  | [] => VUndefined
  | (k, v) :: rest => if String.eqb k key then v else lookup_field key rest
  end.

(** [v.key] and [v?.key] on a value that is neither [null] nor [undefined]:
    only plain objects carry the data properties read by the client; arrays
    and primitives answer [undefined]. *)
Definition get (v : value) (key : string) : value :=
  match v with
  | VObj fields => lookup_field key fields
  | _ => VUndefined
  end.

(** [v?.key]: short-circuits to [undefined] on [null] and [undefined]. *)
Definition get_opt (v : value) (key : string) : value := get v key.

Definition Array_isArray (v : value) : bool :=
  match v with VArr _ => true | _ => false end.

(** [typeof v === 'object'] ([typeof null] is ['object'] too). *)
Definition typeof_object (v : value) : bool :=
  match v with VNull | VArr _ | VObj _ => true | _ => false end.

(** ToBoolean. *)
Definition truthy (v : value) : bool :=
  match v with
  | VUndefined | VNull => false
  | VBool b => b
  | VNum x => negb (PrimFloat.eqb x 0%float || PrimFloat.is_nan x)
  | VStr s => negb (String.eqb s "")
  | VArr _ | VObj _ => true
  end.

(** ToBoolean of a string: only the empty string is falsy. *)
Definition truthy_str (s : string) : bool := negb (String.eqb s "").

(** The number a whole count denotes (exact below 2^53). *)
Definition float_of_Z (z : Z) : float :=
  match z with
  | Z0 => 0%float
  | Zpos _ => PrimFloat.of_uint63 (Uint63.of_Z z)
  | Zneg p => PrimFloat.opp (PrimFloat.of_uint63 (Uint63.of_Z (Zpos p)))
  end.

(** A JavaScript number that is an integer or [NaN] ([None]). *)
Definition float_of_int (d : option Z) : float :=
  match d with
  | Some z => float_of_Z z
  | None => PrimFloat.nan
  end.

(** Decimal rendering of an integer, as a template literal does it. *)
Definition string_of_Z (z : Z) : string := NilZero.string_of_int (Z.to_int z).

Definition MS_PER_DAY : Z := 1000 * 60 * 60 * 24.

(** *** Date-only ISO strings

    [new Date("YYYY-MM-DD")] denotes midnight UTC of that day.  [iso_date]
    parses exactly this form (the form of every date in [mockData] and of the
    value of an [<input type="date">]); any other text is read as an invalid
    date. *)

Definition digit (c : ascii) : option Z :=
  let n := Z.of_N (N_of_ascii c) in
  if (48 <=? n) && (n <=? 57) then Some (n - 48) else None.

Fixpoint digits (acc : Z) (cs : list ascii) : option Z :=
  match cs with
  | [] => Some acc
  | c :: rest =>
      match digit c with
      | Some d => digits (10 * acc + d) rest
      | None => None
      end
  end.

Definition is_leap (y : Z) : bool :=
  ((y mod 4 =? 0) && negb (y mod 100 =? 0)) || (y mod 400 =? 0).

Definition days_in_month (y m : Z) : Z :=
  if m =? 2 then (if is_leap y then 29 else 28)
  else if (m =? 4) || (m =? 6) || (m =? 9) || (m =? 11) then 30
  else 31.

(** Days from 1970-01-01 to the civil date [y]-[m]-[d] (proleptic Gregorian). *)
Definition days_from_civil (y m d : Z) : Z :=
  let y' := if m <=? 2 then y - 1 else y in
  let era := y' / 400 in
  let yoe := y' - era * 400 in
  let mp := (m + 9) mod 12 in
  let doy := (153 * mp + 2) / 5 + d - 1 in
  let doe := yoe * 365 + yoe / 4 - yoe / 100 + doy in
  era * 146097 + doe - 719468.

Definition dash : ascii := "-"%char.

Definition iso_date (s : string) : option Z :=
  match list_ascii_of_string s with
  | [y1; y2; y3; y4; s1; m1; m2; s2; d1; d2] =>
      if Ascii.eqb s1 dash && Ascii.eqb s2 dash then
        match digits 0 [y1; y2; y3; y4], digits 0 [m1; m2], digits 0 [d1; d2] with
        | Some y, Some m, Some d =>
            if (1 <=? m) && (m <=? 12) && (1 <=? d) && (d <=? days_in_month y m)
            then Some (days_from_civil y m d * MS_PER_DAY)
            else None
        | _, _, _ => None
        end
      else None
  | _ => None
  end.

(** *** String.prototype.trim, on the ASCII white space *)

Definition is_space (c : ascii) : bool :=
  let n := N_of_ascii c in
  ((9 <=? n) && (n <=? 13))%N || (n =? 32)%N.

Fixpoint trim_start (cs : list ascii) : list ascii :=
  match cs with
  | c :: rest => if is_space c then trim_start rest else cs
  | [] => []
  end.

Definition trim (s : string) : string :=
  string_of_list_ascii
    (rev (trim_start (rev (trim_start (list_ascii_of_string s))))).

End JS.

(** ** [frontend/src/api/client.js] *)

Module Client.
Import JS.

(** The lien objects of [mockData.liens] and of the add-lien form.  A field
    one of the two shapes lacks is optional ([None] is [undefined]). *)
Record LienData : Type := mkLienData {
  certificate_number : string;
  property_address : string;
  parcel_id : string;
  county : string;
  state : option string;
  purchase_amount : float;
  interest_rate : float;
  premium : option float;
  purchase_date : option string;
  sale_date : option string;
  redemption_deadline : string;
  tax_year : option Z;
  status : string;
}.

Record Lien : Type := mkLien {
  id : string;
  data : LienData;
}.

(** The [data] argument of [updateLien]: any subset of a lien's properties. *)
Record LienPatch : Type := mkLienPatch {
  p_id : option string;
  p_certificate_number : option string;
  p_property_address : option string;
  p_parcel_id : option string;
  p_county : option string;
  p_state : option string;
  p_purchase_amount : option float;
  p_interest_rate : option float;
  p_premium : option float;
  p_purchase_date : option string;
  p_sale_date : option string;
  p_redemption_deadline : option string;
  p_tax_year : option Z;
  p_status : option string;
}.

(** [{ ...lien, ...patch }] *)
Definition spread (l : Lien) (p : LienPatch) : Lien :=
  let d := data l in
  {| id := default (id l) (p_id p);
     data := {|
       certificate_number := default (certificate_number d) (p_certificate_number p);
       property_address := default (property_address d) (p_property_address p);
       parcel_id := default (parcel_id d) (p_parcel_id p);
       county := default (county d) (p_county p);
       state := match p_state p with Some x => Some x | None => state d end;
       purchase_amount := default (purchase_amount d) (p_purchase_amount p);
       interest_rate := default (interest_rate d) (p_interest_rate p);
       premium := match p_premium p with Some x => Some x | None => premium d end;
       purchase_date :=
         match p_purchase_date p with Some x => Some x | None => purchase_date d end;
       sale_date := match p_sale_date p with Some x => Some x | None => sale_date d end;
       redemption_deadline := default (redemption_deadline d) (p_redemption_deadline p);
       tax_year := match p_tax_year p with Some x => Some x | None => tax_year d end;
       status := default (status d) (p_status p);
     |} |}.

(** [mockData]: the module-level store every client instance shares.  Only
    the two collections the modelled methods read or write are kept
    ([portfolioStats] and [chartData] are constants).  Payment objects are
    stored as they come: no method inspects them.  [payments] holds the own
    properties of the object literal [mockData.payments], each an array. *)
Record MockData : Type := mkMockData {
  liens : list Lien;
  payments : gmap string (list value);
}.

(** The members an object literal inherits from [Object.prototype]: those
    of ECMAScript and of its Annex B.  Each is a function, but for
    [__proto__], which reads as the prototype itself: all are truthy and
    none has a [push]. *)
Definition Object_prototype : list string :=
  ["constructor"; "hasOwnProperty"; "isPrototypeOf"; "propertyIsEnumerable";
   "toLocaleString"; "toString"; "valueOf"; "__proto__";
   "__defineGetter__"; "__defineSetter__"; "__lookupGetter__"; "__lookupSetter__"].

Definition inherits (key : string) : bool :=
  existsb (String.eqb key) Object_prototype.

(** What [mockData.payments[lienId]] reads: an array that is an own property,
    or else the member of [Object.prototype] of that name; [None] is
    [undefined]. *)
Inductive found : Type :=
| Array (xs : list value)
| ProtoMember (name : string).

Definition payments_at (md : MockData) (lienId : string) : option found :=
  match payments md !! lienId with
  | Some xs => Some (Array xs)
  | None => if inherits lienId then Some (ProtoMember lienId) else None
  end.

Record ApiClient : Type := mkApiClient {
  tenantId : string;
}.

(** The state an operation runs in: the exported client instance and the
    store. *)
Record World : Type := mkWorld {
  client : ApiClient;
  mockData : MockData;
}.

Definition DEFAULT_TENANT : string := "demo-user".

Definition mock_lien (i cert addr parcel cty : string) (amount prem : float)
    (bought due : string) (year : Z) (st : string) : Lien :=
  {| id := i;
     data := {|
       certificate_number := cert; property_address := addr; parcel_id := parcel;
       county := cty; state := Some "FL"; purchase_amount := amount;
       interest_rate := 18%float; premium := Some prem;
       purchase_date := Some bought; sale_date := None;
       redemption_deadline := due; tax_year := Some year; status := st |} |}.

Definition initial_liens : list Lien := [
  mock_lien "lien-001" "MD-2024-0847" "123 Main St, Miami, FL 33130"
    "01-3245-067-0890" "Miami-Dade" 8500 250 "2024-05-15" "2026-05-15" 2023 "active";
  mock_lien "lien-002" "BR-2024-1234" "456 Oak Ave, Fort Lauderdale, FL 33301"
    "50-42-04-12-0010" "Broward" 12000 500 "2024-03-22" "2026-03-22" 2023 "active";
  mock_lien "lien-003" "PB-2024-0567" "789 Palm Dr, West Palm Beach, FL 33401"
    "74-43-44-21-05-000" "Palm Beach" 5200 100 "2024-06-10" "2026-06-10" 2023 "active";
  mock_lien "lien-004" "MD-2024-0923" "321 Coral Way, Miami, FL 33145"
    "01-4156-023-0450" "Miami-Dade" 15000 750 "2024-04-08" "2026-04-08" 2023 "active";
  mock_lien "lien-005" "BR-2023-4521" "567 Sunrise Blvd, Plantation, FL 33317"
    "50-41-17-01-0230" "Broward" 7800 200 "2023-11-20" "2025-11-20" 2022 "redeemed";
  mock_lien "lien-006" "PB-2024-0789" "890 Ocean Blvd, Boca Raton, FL 33432"
    "06-43-47-27-01-000" "Palm Beach" 9500 300 "2024-02-14" "2026-02-14" 2023 "active";
  mock_lien "lien-007" "MD-2024-1156" "234 Biscayne Dr, Miami Beach, FL 33139"
    "02-3241-008-0120" "Miami-Dade" 4200 50 "2024-07-03" "2026-07-03" 2023 "active";
  mock_lien "lien-008" "BR-2024-2345" "678 Flamingo Rd, Pembroke Pines, FL 33028"
    "51-40-04-02-0560" "Broward" 6300 150 "2024-01-25" "2026-01-25" 2023 "active";
  mock_lien "lien-009" "PB-2023-3456" "901 Royal Palm Way, Palm Beach, FL 33480"
    "50-43-43-02-00-000" "Palm Beach" 3500 75 "2023-09-18" "2025-09-18" 2022 "redeemed";
  mock_lien "lien-010" "MD-2024-0234" "445 Collins Ave, Miami Beach, FL 33140"
    "02-3242-015-0780" "Miami-Dade" 2800 25 "2024-08-12" "2026-08-12" 2023 "active";
  mock_lien "lien-011" "BR-2024-5678" "112 Las Olas Blvd, Fort Lauderdale, FL 33301"
    "50-42-06-08-0340" "Broward" 11200 450 "2024-04-30" "2026-04-30" 2023 "active";
  mock_lien "lien-012" "PB-2024-6789" "333 Clematis St, West Palm Beach, FL 33401"
    "74-43-43-18-14-001" "Palm Beach" 2500 50 "2024-06-28" "2026-06-28" 2023 "active"
].

Definition mock_payment (date : string) (amount : float) : value :=
  VObj [("date", VStr date); ("amount", VNum amount); ("type", VStr "Redemption")].

Definition initial_payments : gmap string (list value) :=
  <["lien-009" := [mock_payment "2024-06-22" 4025]]>
  (<["lien-005" := [mock_payment "2024-08-15" 8760]]> ∅).

Definition initial_mockData : MockData :=
  {| liens := initial_liens; payments := initial_payments |}.

(** [new ApiClient()] *)
Definition constructor : ApiClient := {| tenantId := DEFAULT_TENANT |}.

(** The state when the module has been loaded. *)
Definition initial_world : World :=
  {| client := constructor; mockData := initial_mockData |}.

(** *** Requests *)

(** What a request body holds; [JSON.stringify] is left unapplied. *)
Inductive payload : Type :=
| PLien (d : LienData)
| PPatch (p : LienPatch)
| PValue (v : value).

Record Options : Type := mkOptions {
  opt_method : option string;
  opt_headers : list (string * string);
  opt_body : option payload;
}.

(** [options = {}] *)
Definition no_options : Options :=
  {| opt_method := None; opt_headers := []; opt_body := None |}.

Record Request : Type := mkRequest {
  url : string;
  method : option string;
  headers : list (string * string);
  body : option payload;
}.

Record Response : Type := mkResponse {
  ok : bool;
  http_status : Z;
  (** [response.json()]; [None] when it rejects. *)
  json : option value;
}.

(** The [params] of [getLiens]: callers pass [status] as text and [limit]
    as a whole number. *)
Record LiensParams : Type := mkLiensParams {
  params_status : option string;
  params_limit : option Z;
}.

Definition no_params : LiensParams :=
  {| params_status := None; params_limit := None |}.

(** The build flag and what the browser supplies. *)
Record Env : Type := mkEnv {
  USE_MOCK_DATA : bool;
  (** [import.meta.env.VITE_API_URL] *)
  VITE_API_URL : option string;
  (** [fetch]; [None] when the promise rejects. *)
  fetch : Request -> option Response;
  (** The time value of [new Date(text)]; [None] for an invalid date. *)
  Date_parse : string -> option Z;
  (** [new URLSearchParams(params).toString()] *)
  URLSearchParams_toString : LiensParams -> string;
}.

(** What a method throws: [new Error(message)], [new Error(detail)] for a
    [detail] that is not text, a [TypeError] (a failed [fetch], a property
    read off [null], a call of what is not a function), or the [SyntaxError]
    of a body that is not JSON. *)
Inductive exn : Type :=
| Error (message : string)
| ErrorOf (detail : value)
| TypeError
| SyntaxError.

Inductive result (A : Type) : Type :=
| Ok (a : A)
| Throw (e : exn).
Arguments Ok {A} a.
Arguments Throw {A} e.

(** An async method: runs in a world, returns or throws, leaves a world. *)
Definition M (A : Type) : Type := World -> result A * World.

Definition ret {A} (a : A) : M A := fun w => (Ok a, w).
Definition throw {A} (e : exn) : M A := fun w => (Throw e, w).
Definition bind {A B} (m : M A) (k : A -> M B) : M B :=
  fun w => match m w with
           | (Ok a, w') => k a w'
           | (Throw e, w') => (Throw e, w')
           end.
Definition gets {A} (f : World -> A) : M A := fun w => (Ok (f w), w).
Definition set_mockData (md : MockData) : M unit :=
  fun w => (Ok tt, {| client := client w; mockData := md |}).

Notation "'let*' x := m 'in' k" := (bind m (fun x => k))
  (at level 10, x name, m at level 100, k at level 200).
Notation "'do' m 'then' k" := (bind m (fun _ => k))
  (at level 10, m at level 100, k at level 200).

(** What a method answers: the value its mock branch builds, or whatever
    the server sent. *)
Inductive reply (T : Type) : Type :=
| Local (x : T)
| Remote (v : value).
Arguments Local {T} x.
Arguments Remote {T} v.

Record InterestResult : Type := mkInterestResult {
  lien_id : string;
  days_held : option Z;
  accrued_interest : float;
  total_value : float;
  (** the instant [today.toISOString()] renders *)
  calculation_date : Z;
}.

Record Notification : Type := mkNotification {
  notification_id : string;
  notification_type : string;
  title : string;
  message : string;
  n_lien_id : string;
  priority : string;
  (** the instant rendered by [toISOString()] *)
  created_at : Z;
  read : bool;
}.

Record Notifications : Type := mkNotifications {
  notifications : list Notification;
  count : Z;
  unread_count : Z;
}.

(** [{ ...a, ...b }] on header objects. *)
Fixpoint set_header (k v : string) (hs : list (string * string)) : list (string * string) :=
  match hs with
  | [] => [(k, v)]
  | (k', v') :: rest =>
      if String.eqb k' k then (k', v) :: rest else (k', v') :: set_header k v rest
  end.

Definition spread_headers (base extra : list (string * string)) : list (string * string) :=
  fold_left (fun hs kv => set_header (fst kv) (snd kv) hs) extra base.

Fixpoint header (k : string) (hs : list (string * string)) : option string :=
  match hs with
  | [] => None
  | (k', v) :: rest => if String.eqb k' k then Some v else header k rest
  end.

(** [xs.findIndex(p)]; [None] is [-1]. *)
Fixpoint findIndex {A} (p : A -> bool) (xs : list A) : option nat :=
  match xs with
  | [] => None
  | x :: rest => if p x then Some 0%nat else S <$> findIndex p rest
  end.

(** [xs.slice(0, n)] *)
Definition slice0 {A} (n : Z) (xs : list A) : list A :=
  if 0 <=? n then firstn (Z.to_nat n) xs
  else firstn (Z.to_nat (Z.of_nat (length xs) + n)) xs.

Section Methods.

Variable env : Env.

Definition API_BASE : string :=
  match VITE_API_URL env with
  | Some base => if truthy_str base then base ++ "/api" else "/api"
  | None => "/api"
  end.

(** [setTenantId(tenantId)] *)
Definition setTenantId (t : string) : M unit :=
  fun w => (Ok tt, {| client := {| tenantId := t |}; mockData := mockData w |}).

(** The request [request(endpoint, options)] hands to [fetch]. *)
Definition build_request (c : ApiClient) (endpoint : string) (options : Options) : Request :=
  {| url := API_BASE ++ endpoint;
     method := opt_method options;
     headers :=
       spread_headers
         [("Content-Type", "application/json"); ("X-Tenant-ID", tenantId c)]
         (opt_headers options);
     body := opt_body options |}.

(** [new Error(error.detail || `HTTP ${response.status}`)] *)
Definition http_error (r : Response) : exn :=
  match json r with
  | None => Error "Request failed"
  | Some VNull => TypeError
  | Some v =>
      let d := get v "detail" in
      if truthy d then match d with VStr s => Error s | _ => ErrorOf d end
      else Error ("HTTP " ++ string_of_Z (http_status r))
  end.

Definition request (endpoint : string) (options : Options) : M value :=
  let* c := gets client in
  match fetch env (build_request c endpoint options) with
  | None => throw TypeError
  | Some response =>
      if negb (ok response) then throw (http_error response)
      else match json response with
           | Some v => ret v
           | None => throw SyntaxError
           end
  end.

Definition remote {T} (endpoint : string) (options : Options) : M (reply T) :=
  let* v := request endpoint options in ret (Remote v).

(** Lines 277-291: the liens array inside whatever the server answered. *)
Definition liens_of_response (response : value) : value :=
  if truthy response && typeof_object response then
    if Array_isArray response then response
    else if Array_isArray (get response "liens") then get response "liens"
    else if Array_isArray (get_opt (get response "data") "liens")
         then get (get response "data") "liens"
    else VArr []
  else VArr [].

Definition has_id (lienId : string) (l : Lien) : bool := String.eqb (id l) lienId.

(** [getLiens(params = {})] *)
Definition getLiens (params : LiensParams) : M (reply (list Lien)) :=
  if USE_MOCK_DATA env then
    let* md := gets mockData in
    let liens0 := liens md in
    let liens1 :=
      match params_status params with
      | Some st =>
          if truthy_str st && negb (String.eqb st "all")
          then List.filter (fun l => String.eqb (status (data l)) st) liens0
          else liens0
      | None => liens0
      end in
    let liens2 :=
      match params_limit params with
      | Some n => if n =? 0 then liens1 else slice0 n liens1
      | None => liens1
      end in
    ret (Local liens2)
  else
    let queryString := URLSearchParams_toString env params in
    let* response := request ("/liens" ++ (if truthy_str queryString
                                      then "?" ++ queryString else "")) no_options in
    ret (Remote (liens_of_response response)).

(** [getLien(lienId)] *)
Definition getLien (lienId : string) : M (reply Lien) :=
  if USE_MOCK_DATA env then
    let* md := gets mockData in
    match List.find (has_id lienId) (liens md) with
    | None => throw (Error "Lien not found")
    | Some lien => ret (Local lien)
    end
  else remote ("/liens/" ++ lienId) no_options.

(** [createLien(data)], called at the instant [now] that [Date.now()]
    reads; the [data] of the callers carries no [id] of its own. *)
Definition createLien (now : Z) (d : LienData) : M (reply Lien) :=
  if USE_MOCK_DATA env then
    let* md := gets mockData in
    let newLien := {| id := "lien-" ++ string_of_Z now; data := d |} in
    do set_mockData {| liens := liens md ++ [newLien]; payments := payments md |} then
    ret (Local newLien)
  else
    remote "/liens"
      {| opt_method := Some "POST"; opt_headers := []; opt_body := Some (PLien d) |}.

(** [updateLien(lienId, data)] *)
Definition updateLien (lienId : string) (p : LienPatch) : M (reply Lien) :=
  if USE_MOCK_DATA env then
    let* md := gets mockData in
    match findIndex (has_id lienId) (liens md) with
    | None => throw (Error "Lien not found")
    | Some index =>
        match liens md !! index with
        | None => throw TypeError (* not reached: [index] is in range *)
        | Some old =>
            let updated := spread old p in
            do set_mockData {| liens := <[index := updated]> (liens md);
                            payments := payments md |} then
            ret (Local updated)
        end
    end
  else
    remote ("/liens/" ++ lienId)
      {| opt_method := Some "PUT"; opt_headers := []; opt_body := Some (PPatch p) |}.

(** [deleteLien(lienId)]; [Local tt] is [{ success: true }]. *)
Definition deleteLien (lienId : string) : M (reply unit) :=
  if USE_MOCK_DATA env then
    let* md := gets mockData in
    match findIndex (has_id lienId) (liens md) with
    | None => throw (Error "Lien not found")
    | Some index =>
        do set_mockData {| liens := delete index (liens md); payments := payments md |} then
        ret (Local tt)
    end
  else
    remote ("/liens/" ++ lienId)
      {| opt_method := Some "DELETE"; opt_headers := []; opt_body := None |}.

(** [Math.floor((today - purchaseDate) / (1000 * 60 * 60 * 24))]: both
    operands are whole millisecond counts, or the date is invalid.  For
    instants less than 2^53 ms apart the binary64 quotient has the floor of
    the exact one. *)
Definition daysHeld (today : Z) (purchaseDate : option Z) : option Z :=
  match purchaseDate with
  | Some d => Some ((today - d) / MS_PER_DAY)
  | None => None
  end.

(** [new Date(lien.purchase_date)] *)
Definition purchaseDate (lien : Lien) : option Z :=
  match purchase_date (data lien) with
  | Some text => Date_parse env text
  | None => None
  end.

Definition interest_of (today : Z) (lienId : string) (lien : Lien) : InterestResult :=
  let days := daysHeld today (purchaseDate lien) in
  let dailyRate := (interest_rate (data lien) / 100 / 365)%float in
  let accruedInterest :=
    (purchase_amount (data lien) * dailyRate * float_of_int days)%float in
  {| lien_id := lienId;
     days_held := days;
     accrued_interest := accruedInterest;
     total_value := (purchase_amount (data lien) + accruedInterest)%float;
     calculation_date := today |}.

(** [calculateInterest(lienId)], called at the instant [today] that
    [new Date()] reads off the clock. *)
Definition calculateInterest (today : Z) (lienId : string) : M (reply InterestResult) :=
  if USE_MOCK_DATA env then
    let* md := gets mockData in
    match List.find (has_id lienId) (liens md) with
    | None => throw (Error "Lien not found")
    | Some lien => ret (Local (interest_of today lienId lien))
    end
  else remote ("/liens/" ++ lienId ++ "/interest") no_options.

(** [getPayments(lienId)]: [mockData.payments[lienId] || []]; an array and
    an inherited member are both truthy. *)
Definition getPayments (lienId : string) : M (reply found) :=
  if USE_MOCK_DATA env then
    let* md := gets mockData in
    ret (Local (default (Array []) (payments_at md lienId)))
  else remote ("/liens/" ++ lienId ++ "/payments") no_options.

(** [recordPayment(lienId, data)]: an empty array is put under [lienId] when
    nothing is read there; then [push] is called on what is read there, which
    throws a [TypeError] when that is not an array. *)
Definition recordPayment (lienId : string) (d : value) : M (reply value) :=
  if USE_MOCK_DATA env then
    let* md := gets mockData in
    do (match payments_at md lienId with
        | None => set_mockData {| liens := liens md;
                                  payments := <[lienId := []]> (payments md) |}
        | Some _ => ret tt
        end) then
    let* md := gets mockData in
    match payments_at md lienId with
    | Some (Array xs) =>
        do set_mockData {| liens := liens md;
                        payments := <[lienId := (xs ++ [d])%list]> (payments md) |} then
        ret (Local d)
    | Some (ProtoMember _) | None => throw TypeError
    end
  else
    remote ("/liens/" ++ lienId ++ "/payments")
      {| opt_method := Some "POST"; opt_headers := []; opt_body := Some (PValue d) |}.

(** The mock branch of [getNotifications(params)], called at [now]. *)
Definition mock_notifications (now : Z) : Notifications :=
  {| notifications := [
       {| notification_id := "notif-001";
          notification_type := "deadline_approaching";
          title := "Deadline Approaching";
          message := "Redemption deadline approaching for MD-2024-0847 in 5 days";
          n_lien_id := "lien-001"; priority := "high";
          created_at := now; read := false |};
       {| notification_id := "notif-002";
          notification_type := "payment_received";
          title := "Payment Received";
          message := "Payment received for BR-2023-4521";
          n_lien_id := "lien-005"; priority := "normal";
          created_at := now - 86400000; read := true |};
       {| notification_id := "notif-003";
          notification_type := "lien_created";
          title := "New Lien Created";
          message := "Successfully created lien for 890 Ocean Blvd";
          n_lien_id := "lien-006"; priority := "normal";
          created_at := now - 172800000; read := false |} ];
     count := 3;
     unread_count := 2 |}.

(** [getNotifications(params)]; the query string of the API branch is
    not modelled. *)
Definition getNotifications (now : Z) : M (reply Notifications) :=
  if USE_MOCK_DATA env then ret (Local (mock_notifications now))
  else
    let* response := request "/notifications" no_options in
    ret (Remote (if truthy (get_opt response "data")
                 then get response "data" else response)).

End Methods.

(** The source as shipped, in a browser whose clock and network are given. *)
Definition query_string (p : LiensParams) : string :=
  let st := match params_status p with Some s => ["status=" ++ s] | None => [] end in
  let lim := match params_limit p with
             | Some n => ["limit=" ++ string_of_Z n] | None => [] end in
  String.concat "&" (st ++ lim).

Definition shipped (net : Request -> option Response) : Env :=
  {| USE_MOCK_DATA := true; VITE_API_URL := None; fetch := net;
     Date_parse := iso_date; URLSearchParams_toString := query_string |}.

(** The same with the flag turned off ("Set to false to use real API"). *)
Definition live (net : Request -> option Response) : Env :=
  {| USE_MOCK_DATA := false; VITE_API_URL := None; fetch := net;
     Date_parse := iso_date; URLSearchParams_toString := query_string |}.

Definition offline : Request -> option Response := fun _ => None.

(** The same environment over another network. *)
Definition with_fetch (env : Env) (net : Request -> option Response) : Env :=
  {| USE_MOCK_DATA := USE_MOCK_DATA env; VITE_API_URL := VITE_API_URL env;
     fetch := net; Date_parse := Date_parse env;
     URLSearchParams_toString := URLSearchParams_toString env |}.

(** *** Sequences of calls *)

(** A call of one of the methods above. *)
Inductive call : Type :=
| SetTenantId (t : string)
| GetLiens (params : LiensParams)
| GetLien (lienId : string)
| CreateLien (now : Z) (d : LienData)
| UpdateLien (lienId : string) (p : LienPatch)
| DeleteLien (lienId : string)
| CalculateInterest (today : Z) (lienId : string)
| GetPayments (lienId : string)
| RecordPayment (lienId : string) (d : value)
| GetNotifications (now : Z).

(** The world a call leaves, whether it returns or throws. *)
Definition perform (env : Env) (c : call) (w : World) : World :=
  match c with
  | SetTenantId t => snd (setTenantId t w)
  | GetLiens params => snd (getLiens env params w)
  | GetLien lienId => snd (getLien env lienId w)
  | CreateLien now d => snd (createLien env now d w)
  | UpdateLien lienId p => snd (updateLien env lienId p w)
  | DeleteLien lienId => snd (deleteLien env lienId w)
  | CalculateInterest today lienId => snd (calculateInterest env today lienId w)
  | GetPayments lienId => snd (getPayments env lienId w)
  | RecordPayment lienId d => snd (recordPayment env lienId d w)
  | GetNotifications now => snd (getNotifications env now w)
  end.

Definition perform_all (env : Env) (calls : list call) (w : World) : World :=
  fold_left (fun w' c => perform env c w') calls w.

(** The patch leaves the id of the lien it is applied to alone. *)
Definition keeps_id (lienId : string) (p : LienPatch) : bool :=
  match p_id p with
  | Some i => String.eqb i lienId
  | None => true
  end.

(** Calls other than [deleteLien] and an [updateLien] that renames. *)
Definition removes_nothing (c : call) : bool :=
  match c with
  | DeleteLien _ => false
  | UpdateLien lienId p => keeps_id lienId p
  | _ => true
  end.

(** [getLien(lienId)] answers with a lien. *)
Definition retrievable (env : Env) (lienId : string) (w : World) : Prop :=
  exists lien, fst (getLien env lienId w) = Ok (Local lien).

(** *** Data of the examples *)

Definition day_2024_05_14 : Z := 1715644800000.
Definition day_2025_05_15 : Z := 1747267200000.
Definition day_2025_05_16 : Z := 1747353600000.

(** What the payment dialog sends for 10030.00 paid by check. *)
Definition full_payment : value :=
  VObj [("amount", VNum 10030); ("payment_date", VStr "2025-05-15");
        ("payment_method", VStr "Check"); ("payer_name", VNull);
        ("reference_number", VNull); ("notes", VNull)].

(** What the add-lien form sends for a small lien. *)
Definition form_lien : LienData :=
  {| certificate_number := "LE-2025-0001"; property_address := "1 Bay St";
     parcel_id := "11-22"; county := "Lee"; state := None;
     purchase_amount := 1000; interest_rate := 12; premium := None;
     purchase_date := None; sale_date := Some "2025-01-10";
     redemption_deadline := "2027-01-10"; tax_year := None; status := "ACTIVE" |}.

End Client.

(** ** [frontend/src/pages/AddLienPage.jsx] *)

Module AddLienPage.
Import JS.

(** The form state: the text of each control. *)
Record FormData : Type := mkFormData {
  certificate_number : string;
  purchase_amount : string;
  interest_rate : string;
  sale_date : string;
  redemption_deadline : string;
  county : string;
  property_address : string;
  parcel_id : string;
}.

(** [useState] initial value. *)
Definition empty_form : FormData :=
  {| certificate_number := ""; purchase_amount := ""; interest_rate := "";
     sale_date := ""; redemption_deadline := ""; county := "";
     property_address := ""; parcel_id := "" |}.

(** [newErrors]: field name and message, in the order they are set. *)
Definition Errors : Type := list (string * string).

(** [Object.keys(newErrors)] *)
Definition keys (e : Errors) : list string := map fst e.

(** What [handleSubmit] ends with. *)
Inductive outcome : Type :=
| Rejected (errors : Errors)
| Created (lien : Client.reply Client.Lien)
| Failed (e : Client.exn).

(** [parseFloat] on plain decimal literals: optional white space and sign,
    digits, optional fraction; what follows is ignored.  Exponents and
    [Infinity] are not recognised.  Exact when the digits fit 2^53. *)
Fixpoint take_digits (cs : list ascii) : list ascii * list ascii :=
  match cs with
  | c :: rest =>
      match digit c with
      | Some _ => let (ds, tl) := take_digits rest in (c :: ds, tl)
      | None => ([], cs)
      end
  | [] => ([], [])
  end.

Definition unsigned_decimal (cs : list ascii) : float :=
  let (int_part, rest) := take_digits cs in
  let frac_part :=
    match rest with
    | c :: rest' => if Ascii.eqb c "."%char then fst (take_digits rest') else []
    | [] => []
    end in
  match (int_part ++ frac_part)%list with
  | [] => PrimFloat.nan
  | ds =>
      match digits 0 ds with
      | Some n =>
          (float_of_Z n / float_of_Z (10 ^ Z.of_nat (length frac_part)))%float
      | None => PrimFloat.nan
      end
  end.

Definition parseFloat_decimal (s : string) : float :=
  match trim_start (list_ascii_of_string s) with
  | c :: rest =>
      if Ascii.eqb c "-"%char then PrimFloat.opp (unsigned_decimal rest)
      else if Ascii.eqb c "+"%char then unsigned_decimal rest
      else unsigned_decimal (c :: rest)
  | [] => PrimFloat.nan
  end.

Section Page.

(** The built-ins the page calls. *)
Variable parseFloat : string -> float.
(** The time value of [new Date(text)]; [None] for an invalid date. *)
Variable Date_parse : string -> option Z.

(** [new Date(a) <= new Date(b)]: false when either date is invalid. *)
Definition date_leb (a b : string) : bool :=
  match Date_parse a, Date_parse b with
  | Some x, Some y => x <=? y
  | _, _ => false
  end.

Definition error_if (cond : bool) (field msg : string) : Errors :=
  if cond then [(field, msg)] else [].

(** The [newErrors] object [validateForm] builds. *)
Definition newErrors (formData : FormData) : Errors :=
  (error_if (negb (truthy_str (trim (certificate_number formData))))
     "certificate_number" "Certificate number is required"
   ++
   error_if (negb (truthy_str (purchase_amount formData))
             || (parseFloat (purchase_amount formData) <=? 0)%float)
     "purchase_amount" "Purchase amount must be greater than 0"
   ++
   (if negb (truthy_str (interest_rate formData)) then
      [("interest_rate", "Interest rate is required")]
    else
      let rate := parseFloat (interest_rate formData) in
      error_if ((rate <? 0)%float || (100 <? rate)%float)
        "interest_rate" "Interest rate must be between 0 and 100")
   ++
   error_if (negb (truthy_str (sale_date formData)))
     "sale_date" "Sale date is required"
   ++
   (if negb (truthy_str (redemption_deadline formData)) then
      [("redemption_deadline", "Redemption deadline is required")]
    else if truthy_str (sale_date formData)
            && truthy_str (redemption_deadline formData) then
      error_if (date_leb (redemption_deadline formData) (sale_date formData))
        "redemption_deadline" "Redemption deadline must be after sale date"
    else [])
   ++
   error_if (negb (truthy_str (trim (county formData))))
     "county" "County is required"
   ++
   error_if (negb (truthy_str (trim (property_address formData))))
     "property_address" "Property address is required"
   ++
   error_if (negb (truthy_str (trim (parcel_id formData))))
     "parcel_id" "Parcel ID is required")%list.

(** [validateForm()]: the errors it sets and the flag it returns. *)
Definition validateForm (formData : FormData) : Errors * bool :=
  let e := newErrors formData in
  (e, (length (keys e) =? 0)%nat).

(** The object [handleSubmit] passes to [apiClient.createLien]. *)
Definition lienData (formData : FormData) : Client.LienData :=
  {| Client.certificate_number := trim (certificate_number formData);
     Client.property_address := trim (property_address formData);
     Client.parcel_id := trim (parcel_id formData);
     Client.county := trim (county formData);
     Client.state := None;
     Client.purchase_amount := parseFloat (purchase_amount formData);
     Client.interest_rate := parseFloat (interest_rate formData);
     Client.premium := None;
     Client.purchase_date := None;
     Client.sale_date := Some (sale_date formData);
     Client.redemption_deadline := redemption_deadline formData;
     Client.tax_year := None;
     Client.status := "ACTIVE" |}.

(** [handleSubmit], run at the instant [now]: nothing is sent unless
    [validateForm] passes; an exception of the client is caught and shown. *)
Definition handleSubmit (env : Client.Env) (now : Z) (formData : FormData)
    (w : Client.World) : outcome * Client.World :=
  let (e, valid) := validateForm formData in
  if negb valid then (Rejected e, w)
  else
    match Client.createLien env now (lienData formData) w with
    | (Client.Ok lien, w') => (Created lien, w')
    | (Client.Throw err, w') => (Failed err, w')
    end.

(** *** The lien invariants, as the specification words them *)

Inductive constraint : Type :=
| FieldPresent (field : string)
| PrincipalPositive
| RateInRange
| DeadlineAfterPurchase.

Definition required_fields : list string :=
  ["certificate_number"; "purchase_amount"; "interest_rate"; "sale_date";
   "redemption_deadline"; "county"; "property_address"; "parcel_id"].

Definition field_text (formData : FormData) (field : string) : option string :=
  if String.eqb field "certificate_number" then Some (certificate_number formData)
  else if String.eqb field "purchase_amount" then Some (purchase_amount formData)
  else if String.eqb field "interest_rate" then Some (interest_rate formData)
  else if String.eqb field "sale_date" then Some (sale_date formData)
  else if String.eqb field "redemption_deadline" then Some (redemption_deadline formData)
  else if String.eqb field "county" then Some (county formData)
  else if String.eqb field "property_address" then Some (property_address formData)
  else if String.eqb field "parcel_id" then Some (parcel_id formData)
  else None.

(** The input breaks the constraint: a required field is left empty; the
    principal is not greater than 0; the rate is not within 0..100; the
    redemption deadline is on or before the purchase (sale) date. *)
Definition violates (formData : FormData) (c : constraint) : Prop :=
  match c with
  | FieldPresent field => field_text formData field = Some ""
  | PrincipalPositive =>
      (0 <? parseFloat (purchase_amount formData))%float = false
  | RateInRange =>
      let rate := parseFloat (interest_rate formData) in
      ((0 <=? rate)%float && (rate <=? 100)%float) = false
  | DeadlineAfterPurchase =>
      exists deadline purchase,
        Date_parse (redemption_deadline formData) = Some deadline /\
        Date_parse (sale_date formData) = Some purchase /\
        deadline <= purchase
  end.

(** The field whose error reports the constraint. *)
Definition field_of (c : constraint) : string :=
  match c with
  | FieldPresent field => field
  | PrincipalPositive => "purchase_amount"
  | RateInRange => "interest_rate"
  | DeadlineAfterPurchase => "redemption_deadline"
  end.

(** What a control of [type="number"] holds: nothing, or text that reads
    as a number. *)
Definition number_control (text : string) : Prop :=
  text = "" \/ PrimFloat.is_nan (parseFloat text) = false.

End Page.

(** A form with a negative amount, a rate above 100, a deadline on the sale
    date and no county. *)
Definition bad_form : FormData :=
  {| certificate_number := "MD-2024-1234"; purchase_amount := "-5";
     interest_rate := "180"; sale_date := "2024-05-15";
     redemption_deadline := "2024-05-15"; county := "";
     property_address := "123 Main St"; parcel_id := "01-3245" |}.

End AddLienPage.

(** ** The deadline cascade *)

Module Scheduler.

(** Modelled from the spec: the status of a lien (section 4.2); the
    DeadlineScheduler and the NotificationCenter live in the Python back end,
    which is not among the sources. *)
Inductive LienStatus : Type := ACTIVE | REDEEMED | FORECLOSED | EXPIRED.

(** Modelled from the spec: the status of a DeadlineInstance (section 3). *)
Inductive DeadlineStatus : Type := PENDING | COMPLETED.

#[export] Instance LienStatus_eq_dec : EqDecision LienStatus.
Proof. solve_decision. Defined.

#[export] Instance DeadlineStatus_eq_dec : EqDecision DeadlineStatus.
Proof. solve_decision. Defined.

(** Modelled from the spec: DeadlineInstance (section 3); dates are day
    numbers. *)
Record DeadlineInstance : Type := mkDeadline {
  d_id : string;
  d_lien_id : string;
  d_tenant_id : string;
  kind : string;
  due_date : Z;
  d_status : DeadlineStatus;
  fired_thresholds : gset Z;
}.

(** Modelled from the spec: Notification (section 3), with the threshold
    its uniqueness invariant speaks of. *)
Record Notification : Type := mkNotification {
  n_tenant_id : string;
  n_type : string;
  related_lien_id : option string;
  threshold : option Z;
  created_at : Z;
  read : bool;
}.

(** Modelled from the spec: the collections the sweep reads and writes. *)
Record Store : Type := mkStore {
  lien_status : gmap string LienStatus;
  deadlines : list DeadlineInstance;
  notifications : list Notification;
}.

(** Modelled from the spec: the default escalation cascade (section 4.5). *)
Definition THRESHOLDS : list Z := [90; 60; 30; 14; 7; 3; 1; 0].

(** Modelled from the spec: the (lien_id, threshold, type) triple. *)
Definition key (n : Notification) : option string * option Z * string :=
  (related_lien_id n, threshold n, n_type n).

(** Modelled from the spec: NotificationCenter.Create (section 4.6) keeps
    the existing record when the triple is already there. *)
Definition Create (n : Notification) (ns : list Notification) : list Notification :=
  if bool_decide (key n ∈ map key ns) then ns else (ns ++ [n])%list.

(** Modelled from the spec: a threshold fires when [days_remaining <= T] and
    [T] is not yet in [fired_thresholds]. *)
Definition fires (today : Z) (d : DeadlineInstance) (T : Z) : bool :=
  (due_date d - today <=? T) && negb (bool_decide (T ∈ fired_thresholds d)).

(** Modelled from the spec: the alert of one threshold. *)
Definition alert (today : Z) (d : DeadlineInstance) (T : Z) : Notification :=
  {| n_tenant_id := d_tenant_id d;
     n_type := "deadline_approaching";
     related_lien_id := Some (d_lien_id d);
     threshold := Some T;
     created_at := today;
     read := false |}.

(** Modelled from the spec: one instance in one sweep (section 4.5).  Only a
    PENDING instance of an ACTIVE lien is looked at; every threshold that
    fires yields one Create and enters [fired_thresholds]; past the due date
    the lien becomes EXPIRED and the instance COMPLETED.  Answers the
    thresholds fired. *)
Definition sweep_instance (today : Z) (st : gmap string LienStatus)
    (ns : list Notification) (d : DeadlineInstance)
  : gmap string LienStatus * list Notification * DeadlineInstance * list Z :=
  if bool_decide (d_status d = PENDING)
     && bool_decide (st !! d_lien_id d = Some ACTIVE) then
    let fired := List.filter (fires today d) THRESHOLDS in
    let ns' := fold_left (fun acc T => Create (alert today d T) acc) fired ns in
    let expired := due_date d - today <? 0 in
    let d' := {| d_id := d_id d; d_lien_id := d_lien_id d;
                 d_tenant_id := d_tenant_id d; kind := kind d;
                 due_date := due_date d;
                 d_status := if expired then COMPLETED else d_status d;
                 fired_thresholds := fired_thresholds d ∪ list_to_set fired |} in
    (if expired then <[d_lien_id d := EXPIRED]> st else st, ns', d', fired)
  else (st, ns, d, []).

(** Modelled from the spec: the instances of one sweep, one after the other. *)
Fixpoint sweep_all (today : Z) (st : gmap string LienStatus)
    (ns : list Notification) (ds : list DeadlineInstance)
  : gmap string LienStatus * list Notification * list DeadlineInstance
    * list (string * Z) :=
  match ds with
  | [] => (st, ns, [], [])
  | d :: rest =>
      let '(st1, ns1, d1, fired) := sweep_instance today st ns d in
      let '(st2, ns2, rest', events) := sweep_all today st1 ns1 rest in
      (st2, ns2, d1 :: rest', (map (pair (d_id d)) fired ++ events)%list)
  end.

(** Modelled from the spec: RunDeadlineSweep (section 6) on the day [today];
    answers the firings as (instance, threshold) pairs. *)
Definition sweep (today : Z) (s : Store) : Store * list (string * Z) :=
  let '(st, ns, ds, events) :=
    sweep_all today (lien_status s) (notifications s) (deadlines s) in
  ({| lien_status := st; deadlines := ds; notifications := ns |}, events).

(** Modelled from the spec: sweeps run on the given days, in order. *)
Fixpoint sweeps (days : list Z) (s : Store) : Store * list (string * Z) :=
  match days with
  | [] => (s, [])
  | today :: later =>
      let (s1, e1) := sweep today s in
      let (s2, e2) := sweeps later s1 in
      (s2, (e1 ++ e2)%list)
  end.

(** The notifications recorded for a triple. *)
Definition notifications_for (lien : string) (T : Z) (type : string)
    (s : Store) : list Notification :=
  List.filter (fun n => bool_decide (key n = (Some lien, Some T, type)))
    (notifications s).

(** The thresholds an instance has fired so far. *)
Definition fired_of (i : string) (ds : list DeadlineInstance) : gset Z :=
  match List.find (fun d => String.eqb (d_id d) i) ds with
  | Some d => fired_thresholds d
  | None => ∅
  end.

(** A lien whose redemption deadline (day 129) is 29 days after day 100. *)
Definition due_in_29_days : Store :=
  {| lien_status := {["lien-001" := ACTIVE]};
     deadlines :=
       [{| d_id := "deadline-lien-001"; d_lien_id := "lien-001";
           d_tenant_id := "demo-user"; kind := "redemption"; due_date := 129;
           d_status := PENDING; fired_thresholds := ∅ |}];
     notifications := [] |}.

End Scheduler.

(** ** Properties of the client *)

Import JS Client.

Section InterestCalculation.

Variable env : Env.
Hypothesis mock : USE_MOCK_DATA env = true.

(** With mock data the calculation answers for every lien it finds, and
    leaves the world as it was. *)
Lemma calculateInterest_found (w : World) (today : Z) (lienId : string) (lien : Lien) :
  List.find (has_id lienId) (liens (mockData w)) = Some lien ->
  calculateInterest env today lienId w = (Ok (Local (interest_of env today lienId lien)), w).
Proof.
  intros Hfind. unfold calculateInterest, bind, gets, ret.
  rewrite mock. cbn. rewrite Hfind. reflexivity.
Qed.

Lemma calculateInterest_missing (w : World) (today : Z) (lienId : string) :
  List.find (has_id lienId) (liens (mockData w)) = None ->
  calculateInterest env today lienId w = (Throw (Error "Lien not found"), w).
Proof.
  intros Hfind. unfold calculateInterest, bind, gets, throw.
  rewrite mock. cbn. rewrite Hfind. reflexivity.
Qed.


Lemma daysHeld_sign (today D d : Z) :
  daysHeld today (Some D) = Some d -> (0 <= d <-> D <= today).
Proof.
  intros Hd. injection Hd as <-.
  assert (0 < MS_PER_DAY) by (unfold MS_PER_DAY; lia).
  split; intros Hle.
  - destruct (Z_le_gt_dec D today) as [|Hgt]; [assumption|].
    assert ((today - D) / MS_PER_DAY < 0) by (apply Z.div_lt_upper_bound; lia).
    lia.
  - apply Z.div_pos; lia.
Qed.

End InterestCalculation.



(** C5, as the claim has it, fails: the same lien in the same store gives
    different answers at different readings of the clock. *)
Lemma calculateInterest_reads_the_clock :
  exists r1 r2 : InterestResult,
    fst (calculateInterest (shipped offline) day_2025_05_15 "lien-001" initial_world)
      = Ok (Local r1) /\
    fst (calculateInterest (shipped offline) day_2025_05_16 "lien-001" initial_world)
      = Ok (Local r2) /\
    days_held r1 = Some 365 /\ days_held r2 = Some 366 /\
    accrued_interest r1 <> accrued_interest r2 /\
    total_value r1 <> total_value r2.
Proof.
  eexists. eexists.
  split; [vm_compute; reflexivity|]. split; [vm_compute; reflexivity|].
  split; [reflexivity|]. split; [reflexivity|].
  split; intros H.
  - apply (f_equal (fun x => PrimFloat.ltb x 1532%float)) in H.
    vm_compute in H. discriminate H.
  - apply (f_equal (fun x => PrimFloat.ltb x 10032%float)) in H.
    vm_compute in H. discriminate H.
Qed.

(** C5, amended. The answer is a function of the lien record found and of
    the instant the clock shows at the call: two calls that find liens with
    the same principal, rate and purchase date agree on [days_held],
    [accrued_interest] and [total_value] whenever the two instants lie in the
    same whole day since the purchase, and agree on everything when the two
    instants are the same. *)
Theorem calculateInterest_function_of_lien_and_clock
    (env : Env) (w1 w2 : World) (t1 t2 : Z) (lienId : string) (l1 l2 : Lien) :
  USE_MOCK_DATA env = true ->
  List.find (has_id lienId) (liens (mockData w1)) = Some l1 ->
  List.find (has_id lienId) (liens (mockData w2)) = Some l2 ->
  purchase_amount (data l1) = purchase_amount (data l2) ->
  interest_rate (data l1) = interest_rate (data l2) ->
  purchase_date (data l1) = purchase_date (data l2) ->
  daysHeld t1 (purchaseDate env l1) = daysHeld t2 (purchaseDate env l2) ->
  exists r1 r2 : InterestResult,
    calculateInterest env t1 lienId w1 = (Ok (Local r1), w1) /\
    calculateInterest env t2 lienId w2 = (Ok (Local r2), w2) /\
    days_held r1 = days_held r2 /\
    accrued_interest r1 = accrued_interest r2 /\
    total_value r1 = total_value r2 /\
    (t1 = t2 -> r1 = r2).
Proof.
  intros Hmock H1 H2 HP HR HD Hdays.
  exists (interest_of env t1 lienId l1), (interest_of env t2 lienId l2).
  split; [apply calculateInterest_found; assumption|].
  split; [apply calculateInterest_found; assumption|].
  unfold interest_of. cbn. rewrite HP, HR, Hdays.
  repeat split. intros ->. reflexivity.
Qed.

(** Two instants of 2025-05-15, twelve hours apart. *)
Lemma calculateInterest_function_of_lien_and_clock_witness :
  exists r1 r2 : InterestResult,
    calculateInterest (shipped offline) day_2025_05_15 "lien-001" initial_world
      = (Ok (Local r1), initial_world) /\
    calculateInterest (shipped offline) (day_2025_05_15 + 43200000) "lien-001"
      initial_world = (Ok (Local r2), initial_world) /\
    days_held r1 = days_held r2 /\
    accrued_interest r1 = accrued_interest r2 /\
    total_value r1 = total_value r2 /\
    (day_2025_05_15 = day_2025_05_15 + 43200000 -> r1 = r2).
Proof.
  exact (calculateInterest_function_of_lien_and_clock (shipped offline)
           initial_world initial_world day_2025_05_15 (day_2025_05_15 + 43200000)
           "lien-001" _ _ eq_refl eq_refl eq_refl eq_refl eq_refl eq_refl eq_refl).
Defined.

(** C6, as the claim has it, fails: on the day before the purchase the
    calculation answers, with a negative day count. *)
Lemma calculateInterest_before_purchase :
  exists r : InterestResult,
    fst (calculateInterest (shipped offline) day_2024_05_14 "lien-001" initial_world)
      = Ok (Local r) /\
    days_held r = Some (-1).
Proof.
  eexists. split; vm_compute; reflexivity.
Qed.

(** C6, amended. The calculation never fails for a lien it finds; with a
    valid purchase date its [days_held] is the floored day difference, which
    is non-negative exactly when the clock is not earlier than the purchase
    date, and negative otherwise. *)
Theorem calculateInterest_days_held_sign
    (env : Env) (w : World) (today : Z) (lienId : string) (lien : Lien) (D : Z) :
  USE_MOCK_DATA env = true ->
  List.find (has_id lienId) (liens (mockData w)) = Some lien ->
  purchaseDate env lien = Some D ->
  exists (r : InterestResult) (days : Z),
    calculateInterest env today lienId w = (Ok (Local r), w) /\
    days_held r = Some days /\
    (0 <= days <-> D <= today) /\
    (today < D -> days < 0).
Proof.
  intros Hmock Hfind HD.
  exists (interest_of env today lienId lien), ((today - D) / MS_PER_DAY).
  split; [apply calculateInterest_found; assumption|].
  assert (Hsign : 0 <= (today - D) / MS_PER_DAY <-> D <= today)
    by (apply (daysHeld_sign today D); reflexivity).
  split; [cbn; rewrite HD; reflexivity|].
  split; [exact Hsign|]. intros Hlt.
  destruct (Z_lt_le_dec ((today - D) / MS_PER_DAY) 0) as [|Hge]; [assumption|].
  apply Hsign in Hge. lia.
Qed.

Lemma calculateInterest_days_held_sign_witness :
  exists (r : InterestResult) (days : Z),
    calculateInterest (shipped offline) day_2024_05_14 "lien-001" initial_world
      = (Ok (Local r), initial_world) /\
    days_held r = Some days /\
    (0 <= days <-> 1715731200000 <= day_2024_05_14) /\
    (day_2024_05_14 < 1715731200000 -> days < 0).
Proof.
  exact (calculateInterest_days_held_sign (shipped offline) initial_world
           day_2024_05_14 "lien-001" _ 1715731200000 eq_refl eq_refl eq_refl).
Defined.

(** *** The mock store *)

Section MockStore.

Variable env : Env.
Hypothesis mock : USE_MOCK_DATA env = true.

Lemma getLiens_mock (params : LiensParams) (w : World) :
  exists ls : list Lien, getLiens env params w = (Ok (Local ls), w).
Proof.
  unfold getLiens. rewrite mock. unfold bind, gets, ret. cbn. eauto.
Qed.

Lemma getLien_mock (lienId : string) (w : World) :
  getLien env lienId w =
  match List.find (has_id lienId) (liens (mockData w)) with
  | Some lien => (Ok (Local lien), w)
  | None => (Throw (Error "Lien not found"), w)
  end.
Proof.
  unfold getLien. rewrite mock. unfold bind, gets, ret, throw. cbn.
  destruct (List.find _ _); reflexivity.
Qed.

(** [recordPayment] on what [mockData.payments[lienId]] reads: an inherited
    member makes [push] fail and leaves the store alone; otherwise the
    payment goes behind the payments kept there, if any. *)
Lemma recordPayment_mock (lienId : string) (d : value) (w : World) :
  recordPayment env lienId d w =
  match payments_at (mockData w) lienId with
  | Some (ProtoMember _) => (Throw TypeError, w)
  | _ =>
      (Ok (Local d),
       {| client := client w;
          mockData :=
            {| liens := liens (mockData w);
               payments :=
                 <[lienId := (default [] (payments (mockData w) !! lienId) ++ [d])%list]>
                   (payments (mockData w)) |} |})
  end.
Proof.
  unfold recordPayment. rewrite mock. unfold bind, gets, set_mockData, ret, throw.
  unfold payments_at.
  destruct (payments (mockData w) !! lienId) as [xs|] eqn:Hown.
  - cbn [mockData]. rewrite ?Hown. reflexivity.
  - destruct (inherits lienId) eqn:Hin.
    + cbn [mockData]. rewrite ?Hown, ?Hin. destruct w; reflexivity.
    + cbn [mockData payments liens client]. rewrite lookup_insert_eq.
      rewrite insert_insert_eq. reflexivity.
Qed.

Lemma recordPayment_liens (lienId : string) (d : value) (w : World) :
  liens (mockData (snd (recordPayment env lienId d w))) = liens (mockData w).
Proof.
  rewrite recordPayment_mock.
  destruct (payments_at (mockData w) lienId) as [[xs|name]|]; reflexivity.
Qed.

Lemma getPayments_mock (lienId : string) (w : World) :
  getPayments env lienId w
  = (Ok (Local (default (Array []) (payments_at (mockData w) lienId))), w).
Proof.
  unfold getPayments. rewrite mock. reflexivity.
Qed.

Lemma getNotifications_mock (now : Z) (w : World) :
  getNotifications env now w = (Ok (Local (mock_notifications now)), w).
Proof.
  unfold getNotifications. rewrite mock. reflexivity.
Qed.

(** A lien is retrievable exactly when its id occurs in the store. *)
Lemma find_has_id (lienId : string) (ls : list Lien) :
  (exists lien, List.find (has_id lienId) ls = Some lien) <-> In lienId (map id ls).
Proof.
  induction ls as [|l ls IH]; cbn.
  - split; [intros [? ?]; discriminate | tauto].
  - unfold has_id at 1. destruct (String.eqb_spec (id l) lienId) as [Heq|Hne].
    + split; eauto.
    + rewrite IH. split; [tauto | intros [?|?]; [contradiction | assumption]].
Qed.

Lemma retrievable_iff (lienId : string) (w : World) :
  retrievable env lienId w <-> In lienId (map id (liens (mockData w))).
Proof.
  unfold retrievable. rewrite getLien_mock, <- find_has_id.
  destruct (List.find _ _) as [lien|]; cbn; split; intros [x Hx];
    try discriminate; eauto.
Qed.

Lemma findIndex_Some {A} (p : A -> bool) (xs : list A) (k : nat) :
  findIndex p xs = Some k -> exists x, xs !! k = Some x /\ p x = true.
Proof.
  revert k. induction xs as [|x xs IH]; intros k; cbn; [discriminate|].
  destruct (p x) eqn:Hp.
  - intros [= <-]. eauto.
  - destruct (findIndex p xs) as [j|]; cbn; [|discriminate].
    intros [= <-]. destruct (IH j eq_refl) as (y & Hy & Hpy). eauto.
Qed.

(** An update that keeps the id leaves the ids of the store as they were. *)
Lemma updateLien_ids (lienId : string) (p : LienPatch) (w : World) :
  keeps_id lienId p = true ->
  map id (liens (mockData (snd (updateLien env lienId p w))))
  = map id (liens (mockData w)).
Proof.
  intros Hkeep. unfold updateLien. rewrite mock. unfold bind, gets, throw. cbn.
  destruct (findIndex _ _) as [k|] eqn:Hk; [|reflexivity].
  destruct (findIndex_Some _ _ _ Hk) as (old & Hold & Hid).
  rewrite Hold. cbn. rewrite list_fmap_insert.
  apply list_insert_id. rewrite list_lookup_fmap, Hold. cbn. f_equal.
  unfold keeps_id in Hkeep. unfold has_id in Hid.
  apply String.eqb_eq in Hid.
  destruct (p_id p) as [i|]; cbn; [|reflexivity].
  apply String.eqb_eq in Hkeep. congruence.
Qed.

(** A call that removes nothing keeps every id of the store. *)
Lemma perform_keeps_ids (c : call) (w : World) (lienId : string) :
  removes_nothing c = true ->
  In lienId (map id (liens (mockData w))) ->
  In lienId (map id (liens (mockData (perform env c w)))).
Proof.
  intros Hc Hin. destruct c; cbn [perform]; try discriminate Hc.
  - exact Hin.
  - destruct (getLiens_mock params w) as [ls ->]. exact Hin.
  - rewrite getLien_mock. destruct (List.find _ _); exact Hin.
  - unfold createLien. rewrite mock. cbn.
    rewrite map_app. apply in_or_app. left. exact Hin.
  - rewrite updateLien_ids; [exact Hin | exact Hc].
  - unfold calculateInterest. rewrite mock. unfold bind, gets, ret, throw. cbn.
    destruct (List.find _ _); exact Hin.
  - rewrite getPayments_mock. exact Hin.
  - rewrite recordPayment_liens. exact Hin.
  - rewrite getNotifications_mock. exact Hin.
Qed.

End MockStore.

(** C3, as the claim has it, fails: a payment of 10030.00, the whole accrued
    value of the first mock lien on 2025-05-15, is recorded; the lien stays
    active, the notifications are what they were, and a second payment is
    recorded as well. *)
Lemma recordPayment_never_redeems :
  let env := shipped offline in
  let w1 := snd (recordPayment env "lien-001" full_payment initial_world) in
  let w2 := snd (recordPayment env "lien-001" full_payment w1) in
  (exists r, fst (calculateInterest env day_2025_05_15 "lien-001" initial_world)
             = Ok (Local r) /\ total_value r = 10030%float) /\
  get full_payment "amount" = VNum 10030 /\
  (exists lien, fst (getLien env "lien-001" w1) = Ok (Local lien) /\
                status (data lien) = "active") /\
  fst (getNotifications env day_2025_05_15 w1)
    = fst (getNotifications env day_2025_05_15 initial_world) /\
  fst (recordPayment env "lien-001" full_payment w1) = Ok (Local full_payment) /\
  fst (getPayments env "lien-001" w2)
    = Ok (Local (Array [full_payment; full_payment])).
Proof.
  cbv zeta. split; [eexists; split; vm_compute; reflexivity|].
  split; [reflexivity|].
  split; [eexists; split; vm_compute; reflexivity|].
  repeat split; vm_compute; reflexivity.
Qed.

(** C3, amended. With mock data, recording a payment never looks at the
    lien: whatever its status and whatever was paid before, the payment is
    appended to the payments kept under that lien id and is the answer; the
    liens, the payments of other liens and the notifications stay as they
    were.  The one call that fails is on a lien id that names a member
    objects inherit ([constructor], [toString], [__proto__], ...) with no
    payments of its own: it throws a [TypeError] and leaves the store as it
    was. *)
Theorem recordPayment_appends
    (env : Env) (w : World) (lienId : string) (d : value) :
  USE_MOCK_DATA env = true ->
  exists w' : World,
    snd (recordPayment env lienId d w) = w' /\
    liens (mockData w') = liens (mockData w) /\
    client w' = client w /\
    (forall other, other <> lienId ->
       fst (getPayments env other w') = fst (getPayments env other w)) /\
    (forall now, fst (getNotifications env now w') = fst (getNotifications env now w)) /\
    ((inherits lienId = false \/ is_Some (payments (mockData w) !! lienId)) ->
     fst (recordPayment env lienId d w) = Ok (Local d) /\
     exists before,
       fst (getPayments env lienId w) = Ok (Local (Array before)) /\
       fst (getPayments env lienId w') = Ok (Local (Array (before ++ [d])%list))) /\
    (inherits lienId = true -> payments (mockData w) !! lienId = None ->
     fst (recordPayment env lienId d w) = Throw TypeError /\
     w' = w /\
     fst (getPayments env lienId w) = Ok (Local (ProtoMember lienId))).
Proof.
  intros Hmock. eexists. split; [reflexivity|].
  rewrite (recordPayment_mock env Hmock).
  split; [destruct (payments_at _ _) as [[xs|name]|]; reflexivity|].
  split; [destruct (payments_at _ _) as [[xs|name]|]; reflexivity|].
  split; [|split; [|split]].
  - intros other Hne. rewrite !getPayments_mock by exact Hmock.
    destruct (payments_at (mockData w) lienId) as [[xs|name]|]; cbn [fst snd];
      try reflexivity;
      unfold payments_at; cbn [mockData payments];
      rewrite lookup_insert_ne by congruence; reflexivity.
  - intros now. rewrite !getNotifications_mock by exact Hmock. reflexivity.
  - intros Hordinary.
    assert (Hat : payments_at (mockData w) lienId
                  = Array <$> payments (mockData w) !! lienId).
    { unfold payments_at.
      destruct Hordinary as [Hno|[xs Hxs]]; [|rewrite Hxs; reflexivity].
      rewrite Hno. destruct (payments (mockData w) !! lienId); reflexivity. }
    rewrite !getPayments_mock by exact Hmock. rewrite Hat.
    destruct (payments (mockData w) !! lienId) as [xs|] eqn:Hown; cbn [fmap option_fmap option_map fst snd].
    + split; [reflexivity|]. exists xs. split; [reflexivity|].
      unfold payments_at. cbn [mockData payments]. rewrite lookup_insert_eq.
      reflexivity.
    + split; [reflexivity|]. exists []. split; [reflexivity|].
      unfold payments_at. cbn [mockData payments]. rewrite lookup_insert_eq.
      reflexivity.
  - intros Hin Hown. rewrite !getPayments_mock by exact Hmock.
    unfold payments_at. rewrite Hown, Hin. cbn. auto.
Qed.

(** A payment against a lien that is already redeemed. *)
Lemma recordPayment_appends_witness :
  exists w' : World,
    snd (recordPayment (shipped offline) "lien-005" full_payment initial_world) = w' /\
    liens (mockData w') = liens (mockData initial_world) /\
    client w' = client initial_world /\
    (forall other, other <> "lien-005" ->
       fst (getPayments (shipped offline) other w')
       = fst (getPayments (shipped offline) other initial_world)) /\
    (forall now, fst (getNotifications (shipped offline) now w')
                 = fst (getNotifications (shipped offline) now initial_world)) /\
    ((inherits "lien-005" = false \/
      is_Some (payments (mockData initial_world) !! "lien-005")) ->
     fst (recordPayment (shipped offline) "lien-005" full_payment initial_world)
       = Ok (Local full_payment) /\
     exists before,
       fst (getPayments (shipped offline) "lien-005" initial_world)
         = Ok (Local (Array before)) /\
       fst (getPayments (shipped offline) "lien-005" w')
         = Ok (Local (Array (before ++ [full_payment])%list))) /\
    (inherits "lien-005" = true ->
     payments (mockData initial_world) !! "lien-005" = None ->
     fst (recordPayment (shipped offline) "lien-005" full_payment initial_world)
       = Throw TypeError /\
     w' = initial_world /\
     fst (getPayments (shipped offline) "lien-005" initial_world)
       = Ok (Local (ProtoMember "lien-005"))).
Proof.
  exact (recordPayment_appends (shipped offline) initial_world "lien-005"
           full_payment eq_refl).
Defined.

(** The payments a redeemed lien has after one more, and the call on an
    inherited name: [mockData.payments.constructor] is a function without
    [push]. *)
Example recordPayment_on_a_redeemed_lien :
  let w' := snd (recordPayment (shipped offline) "lien-005" full_payment initial_world) in
  fst (recordPayment (shipped offline) "lien-005" full_payment initial_world)
    = Ok (Local full_payment) /\
  fst (getPayments (shipped offline) "lien-005" w')
    = Ok (Local (Array [mock_payment "2024-08-15" 8760; full_payment])).
Proof. vm_compute. split; reflexivity. Qed.

Example recordPayment_on_an_inherited_name :
  recordPayment (shipped offline) "constructor" full_payment initial_world
    = (Throw TypeError, initial_world) /\
  fst (getPayments (shipped offline) "constructor" initial_world)
    = Ok (Local (ProtoMember "constructor")) /\
  fst (getPayments (shipped offline) "lien-001" initial_world) = Ok (Local (Array [])).
Proof. vm_compute. repeat split; reflexivity. Qed.

(** C7, as the claim has it, fails: [deleteLien] takes the record out of the
    store, and the lien that could be fetched before cannot be fetched after. *)
Lemma deleteLien_removes_the_record :
  let env := shipped offline in
  let w1 := snd (deleteLien env "lien-001" initial_world) in
  retrievable env "lien-001" initial_world /\
  fst (deleteLien env "lien-001" initial_world) = Ok (Local tt) /\
  fst (getLien env "lien-001" w1) = Throw (Error "Lien not found") /\
  ~ retrievable env "lien-001" w1.
Proof.
  cbv zeta. split; [eexists; vm_compute; reflexivity|].
  split; [vm_compute; reflexivity|].
  assert (H : fst (getLien (shipped offline) "lien-001"
                     (snd (deleteLien (shipped offline) "lien-001" initial_world)))
              = Throw (Error "Lien not found")) by (vm_compute; reflexivity).
  split; [exact H|]. intros [lien Hlien]. rewrite H in Hlien. discriminate.
Qed.

(** C7, amended. With mock data, a lien that can be fetched before a
    sequence of calls can be fetched after it, provided no call of the
    sequence is a [deleteLien] or an [updateLien] whose patch changes the id:
    [deleteLien] is a physical removal, and status is an ordinary field. *)
Theorem liens_survive_other_calls
    (env : Env) (calls : list call) (w : World) (lienId : string) :
  USE_MOCK_DATA env = true ->
  forallb removes_nothing calls = true ->
  retrievable env lienId w ->
  retrievable env lienId (perform_all env calls w).
Proof.
  intros Hmock. revert w. induction calls as [|c calls IH]; intros w Hcalls Hw.
  - exact Hw.
  - cbn in Hcalls. apply andb_prop in Hcalls as [Hc Hcalls].
    cbn. apply IH; [exact Hcalls|].
    apply (retrievable_iff env Hmock). apply (perform_keeps_ids env Hmock); [exact Hc|].
    apply (retrievable_iff env Hmock). exact Hw.
Qed.

Lemma liens_survive_other_calls_witness :
  retrievable (shipped offline) "lien-001"
    (perform_all (shipped offline)
       [ CreateLien day_2025_05_15 form_lien;
         RecordPayment "lien-001" full_payment;
         UpdateLien "lien-001"
           {| p_id := None; p_certificate_number := None; p_property_address := None;
              p_parcel_id := None; p_county := None; p_state := None;
              p_purchase_amount := None; p_interest_rate := None; p_premium := None;
              p_purchase_date := None; p_sale_date := None;
              p_redemption_deadline := None; p_tax_year := None;
              p_status := Some "redeemed" |};
         SetTenantId "tenant-B";
         GetLiens no_params ]
       initial_world).
Proof.
  apply (liens_survive_other_calls (shipped offline)); [reflexivity | reflexivity |].
  eexists. vm_compute. reflexivity.
Defined.

(** *** The tenant identifier *)

(** Every request the client builds for one of its own calls carries the
    tenant identifier the client holds at that moment. *)
Lemma build_request_tenant (env : Env) (c : ApiClient) (endpoint : string)
    (m : option string) (b : option payload) :
  header "X-Tenant-ID"
    (headers (build_request env c endpoint
                {| opt_method := m; opt_headers := []; opt_body := b |}))
  = Some (tenantId c).
Proof. reflexivity. Qed.

(** [request] consults the network only through the request it builds. *)
Lemma request_with_fetch (env : Env) (net1 net2 : Request -> option Response)
    (endpoint : string) (w : World) :
  (forall req, header "X-Tenant-ID" (headers req) = Some (tenantId (client w)) ->
               net1 req = net2 req) ->
  request (with_fetch env net1) endpoint no_options w
  = request (with_fetch env net2) endpoint no_options w.
Proof.
  intros Hnet. unfold request, bind, gets. cbn [fetch with_fetch].
  change (build_request (with_fetch env net1) (client w) endpoint no_options)
    with (build_request (with_fetch env net2) (client w) endpoint no_options).
  rewrite (Hnet (build_request (with_fetch env net2) (client w) endpoint no_options))
    by apply build_request_tenant.
  reflexivity.
Qed.

(** C1, as the claim has it, fails: a lien created while the client holds
    tenant B's identifier is returned to a query made with tenant A's. *)
Lemma getLiens_shows_another_tenants_lien :
  let env := shipped offline in
  let wB := snd (setTenantId "tenant-B" initial_world) in
  let created := createLien env day_2025_05_15 form_lien wB in
  let wA := snd (setTenantId "tenant-A" (snd created)) in
  exists (lien : Lien) (ls : list Lien),
    tenantId (client wB) = "tenant-B" /\
    fst created = Ok (Local lien) /\
    ~ In (id lien) (map id (liens (mockData initial_world))) /\
    tenantId (client wA) = "tenant-A" /\
    fst (getLiens env no_params wA) = Ok (Local ls) /\
    In lien ls.
Proof.
  cbv zeta. eexists. eexists.
  split; [reflexivity|]. split; [vm_compute; reflexivity|].
  split; [|split; [reflexivity|split; [vm_compute; reflexivity|]]].
  - vm_compute. intros H.
    repeat (destruct H as [H|H]; [discriminate H|]). exact H.
  - do 12 right. left. reflexivity.
Qed.

(** C1, amended. The client itself keeps no record apart by tenant.  With
    mock data there is one store for all tenant identifiers, and what
    [getLiens] answers does not depend on the identifier the client holds.
    With the API, the identifier goes out in the [X-Tenant-ID] header of the
    request and the answer is made from the server's reply to that request
    alone: two servers that reply alike to every request carrying the
    caller's identifier yield the same answer. *)
Theorem getLiens_tenant_identifier
    (env : Env) (w : World) (params : LiensParams)
    (net1 net2 : Request -> option Response) (t : string) :
  (forall req, header "X-Tenant-ID" (headers req) = Some (tenantId (client w)) ->
               net1 req = net2 req) ->
  getLiens (with_fetch env net1) params w = getLiens (with_fetch env net2) params w /\
  (USE_MOCK_DATA env = true ->
   fst (getLiens env params (snd (setTenantId t w))) = fst (getLiens env params w)).
Proof.
  intros Hnet. split.
  - unfold getLiens. cbn [USE_MOCK_DATA with_fetch URLSearchParams_toString].
    destruct (USE_MOCK_DATA env); [reflexivity|].
    unfold bind. rewrite (request_with_fetch env net1 net2 _ w Hnet). reflexivity.
  - intros Hmock. unfold getLiens. rewrite Hmock. reflexivity.
Qed.

(** A server that answers tenant "demo-user" and nobody else, and one that
    answers everybody; the client holds "demo-user". *)
Lemma getLiens_tenant_identifier_witness :
  let reply := {| ok := true; http_status := 200;
                  json := Some (VObj [("liens", VArr []); ("count", VNum 0)]) |} in
  let net1 := fun req =>
    if bool_decide (header "X-Tenant-ID" (headers req) = Some "demo-user")
    then Some reply else None in
  let net2 := fun _ : Request => Some reply in
  getLiens (with_fetch (live offline) net1) no_params initial_world
    = getLiens (with_fetch (live offline) net2) no_params initial_world /\
  (USE_MOCK_DATA (live offline) = true ->
   fst (getLiens (live offline) no_params (snd (setTenantId "tenant-A" initial_world)))
   = fst (getLiens (live offline) no_params initial_world)).
Proof.
  cbv zeta.
  apply (getLiens_tenant_identifier (live offline) initial_world no_params).
  intros req Hreq. cbn in Hreq. rewrite Hreq. reflexivity.
Defined.

(** C8, as the claim has it, fails: a client nobody gave a tenant identifier
    holds "demo-user", sends it, and is served; so is a client whose
    identifier was set to the empty text. *)
Lemma constructor_defaults_the_tenant :
  tenantId constructor = "demo-user" /\
  client initial_world = constructor /\
  (exists ls, fst (getLiens (shipped offline) no_params initial_world) = Ok (Local ls)
              /\ length ls = 12%nat) /\
  header "X-Tenant-ID"
    (headers (build_request (live offline) constructor "/liens" no_options))
    = Some "demo-user" /\
  (exists ls, fst (getLiens (shipped offline) no_params
                     (snd (setTenantId "" initial_world))) = Ok (Local ls)
              /\ length ls = 12%nat).
Proof.
  split; [reflexivity|]. split; [reflexivity|].
  split; [eexists; split; vm_compute; reflexivity|].
  split; [reflexivity|]. eexists; split; vm_compute; reflexivity.
Qed.

(** C8, amended. A new client holds the default tenant identifier
    "demo-user" until [setTenantId] replaces it; every request carries the
    identifier the client holds; no method asks whether one was supplied:
    with mock data [getLiens] answers whatever the identifier is. *)
Theorem tenant_is_defaulted_not_required
    (env : Env) (w : World) (params : LiensParams) :
  USE_MOCK_DATA env = true ->
  tenantId constructor = DEFAULT_TENANT /\
  (forall c endpoint,
     header "X-Tenant-ID" (headers (build_request env c endpoint no_options))
     = Some (tenantId c)) /\
  (forall t, exists ls,
     getLiens env params (snd (setTenantId t w))
     = (Ok (Local ls), snd (setTenantId t w))).
Proof.
  intros Hmock. split; [reflexivity|]. split.
  - intros c endpoint. apply build_request_tenant.
  - intros t. apply getLiens_mock. exact Hmock.
Qed.

Lemma tenant_is_defaulted_not_required_witness :
  tenantId constructor = DEFAULT_TENANT /\
  (forall c endpoint,
     header "X-Tenant-ID"
       (headers (build_request (shipped offline) c endpoint no_options))
     = Some (tenantId c)) /\
  (forall t, exists ls,
     getLiens (shipped offline) no_params (snd (setTenantId t initial_world))
     = (Ok (Local ls), snd (setTenantId t initial_world))).
Proof.
  exact (tenant_is_defaulted_not_required (shipped offline) initial_world
           no_params eq_refl).
Defined.

(** *** Response shapes *)

Lemma liens_of_response_array (response : value) :
  exists xs, liens_of_response response = VArr xs.
Proof.
  unfold liens_of_response.
  destruct (truthy response && typeof_object response); [|eauto].
  destruct response as [| | | | |xs|fields]; cbn [Array_isArray]; eauto.
  destruct (get (VObj fields) "liens") as [| | | | |xs|]; cbn [Array_isArray]; eauto;
    destruct (get_opt (get (VObj fields) "data") "liens") as [| | | | |ys|] eqn:Hd;
    cbn [Array_isArray]; unfold get_opt in Hd; rewrite ?Hd; eauto.
Qed.

(** The four shapes the source names. *)
Example liens_of_bare_array :
  liens_of_response (VArr [VStr "a"; VStr "b"]) = VArr [VStr "a"; VStr "b"].
Proof. reflexivity. Qed.

Example liens_of_liens_object :
  liens_of_response (VObj [("liens", VArr [VStr "a"]); ("count", VNum 1)])
  = VArr [VStr "a"].
Proof. reflexivity. Qed.

Example liens_of_wrapped_object :
  liens_of_response
    (VObj [("success", VBool true); ("data", VObj [("liens", VArr [VStr "a"])])])
  = VArr [VStr "a"].
Proof. reflexivity. Qed.

Example liens_of_other_values :
  map liens_of_response
    [VNull; VUndefined; VStr "oops"; VNum 3; VBool true; VObj [("data", VNull)];
     VObj [("liens", VStr "none")]; VObj [("data", VArr [])]]
  = repeat (VArr []) 8.
Proof. vm_compute. reflexivity. Qed.

(** C10. Whatever the liens query path produces (a bare array, an object
    with a [liens] array, an object with a nested [data.liens] array, or any
    other value), [getLiens] answers with an array, possibly empty: with mock
    data the array of liens, with the API the array found in the response or
    the empty one.  It throws only what [request] threw. *)
Theorem getLiens_answers_an_array (env : Env) (params : LiensParams) (w : World) :
  (forall response, exists xs, liens_of_response response = VArr xs) /\
  match fst (getLiens env params w) with
  | Ok (Local ls) => USE_MOCK_DATA env = true
  | Ok (Remote v) =>
      USE_MOCK_DATA env = false /\
      exists (endpoint : string) (response xs : _),
        fst (request env endpoint no_options w) = Ok response /\
        v = liens_of_response response /\ v = VArr xs
  | Throw e =>
      USE_MOCK_DATA env = false /\
      exists endpoint, fst (request env endpoint no_options w) = Throw e
  end.
Proof.
  split; [exact liens_of_response_array|].
  unfold getLiens. destruct (USE_MOCK_DATA env) eqn:Hmock.
  - reflexivity.
  - unfold bind.
    set (endpoint := "/liens" ++ _).
    destruct (request env endpoint no_options w) as [[response|e] w'] eqn:Hreq;
      cbn [fst ret].
    + split; [reflexivity|].
      destruct (liens_of_response_array response) as [xs Hxs].
      exists endpoint, response, xs. rewrite Hreq. auto.
    + split; [reflexivity|]. exists endpoint. rewrite Hreq. reflexivity.
Qed.

(** ** Properties of the add-lien form *)

Section FloatOrder.

(** Comparisons of numbers, through their IEEE 754 reading. *)

Lemma SFcompare_antisym (a b : spec_float) :
  SFcompare b a = option_map CompOpp (SFcompare a b).
Proof.
  destruct a as [sa|sa| |sa ma ea], b as [sb|sb| |sb mb eb]; cbn;
    try reflexivity;
    try (destruct sa; reflexivity); try (destruct sb; reflexivity);
    try (destruct sa, sb; reflexivity).
  pose proof (Pos.compare_cont_antisym ma mb Eq) as Hm. cbn in Hm.
  destruct sa, sb; try reflexivity;
    rewrite (Z.compare_antisym ea eb);
    destruct (ea ?= eb)%Z; cbn; try reflexivity;
    rewrite <- Hm; destruct (Pos.compare_cont Eq ma mb); reflexivity.
Qed.

Lemma SFcompare_None (a b : spec_float) :
  SFcompare a b = None -> a = S754_nan \/ b = S754_nan.
Proof.
  destruct a, b; cbn; intros H; try discriminate H; auto.
Qed.

Lemma is_nan_false (x : float) :
  PrimFloat.is_nan x = false -> Prim2SF x <> S754_nan.
Proof.
  unfold PrimFloat.is_nan. rewrite FloatAxioms.eqb_spec. unfold SFeqb.
  intros H Hnan. rewrite Hnan in H. discriminate H.
Qed.

Lemma float_compare_total (x y : float) :
  PrimFloat.is_nan x = false -> PrimFloat.is_nan y = false ->
  exists c, SFcompare (Prim2SF x) (Prim2SF y) = Some c.
Proof.
  intros Hx%is_nan_false Hy%is_nan_false.
  destruct (SFcompare (Prim2SF x) (Prim2SF y)) as [c|] eqn:Hc; [eauto|].
  apply SFcompare_None in Hc as [?|?]; contradiction.
Qed.

(** For numbers, "not less than" is "greater than or equal". *)
Lemma float_not_ltb (x y : float) :
  PrimFloat.is_nan x = false -> PrimFloat.is_nan y = false ->
  (x <? y)%float = false -> (y <=? x)%float = true.
Proof.
  intros Hx Hy. rewrite ltb_spec, leb_spec. unfold SFltb, SFleb.
  rewrite (SFcompare_antisym (Prim2SF x) (Prim2SF y)).
  destruct (float_compare_total x y Hx Hy) as [c ->].
  destruct c; cbn; congruence.
Qed.

(** For numbers, "not less than or equal" is "greater than". *)
Lemma float_not_leb (x y : float) :
  PrimFloat.is_nan x = false -> PrimFloat.is_nan y = false ->
  (x <=? y)%float = false -> (y <? x)%float = true.
Proof.
  intros Hx Hy. rewrite ltb_spec, leb_spec. unfold SFltb, SFleb.
  rewrite (SFcompare_antisym (Prim2SF x) (Prim2SF y)).
  destruct (float_compare_total x y Hx Hy) as [c ->].
  destruct c; cbn; congruence.
Qed.

End FloatOrder.

Section FormValidation.
Import AddLienPage.

Variable parseFloat : string -> float.
Variable Date_parse : string -> option Z.

(** [new Date("")] is an invalid date. *)
Hypothesis Date_parse_empty : Date_parse "" = None.

Lemma truthy_str_false (s : string) : truthy_str s = false -> s = "".
Proof.
  unfold truthy_str. destruct (String.eqb_spec s ""); [auto | discriminate].
Qed.

Lemma number_control_truthy (text : string) :
  number_control parseFloat text -> truthy_str text = true ->
  PrimFloat.is_nan (parseFloat text) = false.
Proof. intros [->|H] Ht; [discriminate Ht | exact H]. Qed.

Local Ltac open_errors :=
  unfold validateForm, newErrors, keys; cbn [fst];
  rewrite !map_app, !in_app_iff.

Lemma required_field_listed (formData : FormData) (field : string) :
  field_text formData field = Some "" ->
  In field (keys (fst (validateForm parseFloat Date_parse formData))).
Proof.
  unfold field_text. open_errors.
  repeat match goal with
         | |- context [String.eqb field ?name] =>
             destruct (String.eqb_spec field name) as [->|_]
         end; intros [= Hempty]; rewrite Hempty; cbn; tauto.
Qed.

Lemma principal_listed (formData : FormData) :
  number_control parseFloat (purchase_amount formData) ->
  violates parseFloat Date_parse formData PrincipalPositive ->
  In "purchase_amount" (keys (fst (validateForm parseFloat Date_parse formData))).
Proof.
  intros Hnum Hviol. cbn in Hviol. open_errors. right. left.
  destruct (truthy_str (purchase_amount formData)) eqn:Ht; cbn; [|tauto].
  rewrite (float_not_ltb 0 _ eq_refl (number_control_truthy _ Hnum Ht) Hviol).
  cbn. tauto.
Qed.

Lemma rate_listed (formData : FormData) :
  number_control parseFloat (interest_rate formData) ->
  violates parseFloat Date_parse formData RateInRange ->
  In "interest_rate" (keys (fst (validateForm parseFloat Date_parse formData))).
Proof.
  intros Hnum Hviol. cbn in Hviol. open_errors. right. right. left.
  destruct (truthy_str (interest_rate formData)) eqn:Ht; cbn; [|tauto].
  pose proof (number_control_truthy _ Hnum Ht) as Hrate.
  apply andb_false_iff in Hviol as [Hlow|Hhigh].
  - rewrite (float_not_leb 0 _ eq_refl Hrate Hlow). cbn. tauto.
  - rewrite (float_not_leb _ 100 Hrate eq_refl Hhigh), orb_true_r. cbn. tauto.
Qed.

Lemma deadline_listed (formData : FormData) :
  violates parseFloat Date_parse formData DeadlineAfterPurchase ->
  In "redemption_deadline" (keys (fst (validateForm parseFloat Date_parse formData))).
Proof.
  intros (deadline & purchase & Hd & Hp & Hle). open_errors.
  do 4 right. left.
  destruct (truthy_str (redemption_deadline formData)) eqn:Hrd; cbn; [|tauto].
  destruct (truthy_str (sale_date formData)) eqn:Hsd; cbn.
  - unfold date_leb. rewrite Hd, Hp.
    destruct (Z.leb_spec deadline purchase); [cbn; tauto | lia].
  - apply truthy_str_false in Hsd. rewrite Hsd, Date_parse_empty in Hp. discriminate.
Qed.

Lemma violation_listed (formData : FormData) (c : constraint) :
  number_control parseFloat (purchase_amount formData) ->
  number_control parseFloat (interest_rate formData) ->
  violates parseFloat Date_parse formData c ->
  In (field_of c) (keys (fst (validateForm parseFloat Date_parse formData))).
Proof.
  intros Hamount Hrate Hviol. destruct c; cbn [field_of].
  - apply required_field_listed. exact Hviol.
  - apply principal_listed; assumption.
  - apply rate_listed; assumption.
  - apply deadline_listed. exact Hviol.
Qed.

End FormValidation.

(** C9. A form input that breaks one or more of the lien invariants
    (principal > 0, 0 <= rate <= 100, redemption deadline after the purchase
    date, required fields filled in) is rejected: [validateForm] answers
    false, [handleSubmit] creates nothing, and the errors name the field of
    every broken constraint, not only of the first; an input whose redemption
    deadline is on or before the purchase date gets an error under
    [redemption_deadline].  The number controls hold no text or a number. *)
Theorem validateForm_lists_every_violation
    (parseFloat : string -> float) (Date_parse : string -> option Z)
    (formData : AddLienPage.FormData) (broken : list AddLienPage.constraint) :
  Date_parse "" = None ->
  AddLienPage.number_control parseFloat (AddLienPage.purchase_amount formData) ->
  AddLienPage.number_control parseFloat (AddLienPage.interest_rate formData) ->
  broken <> [] ->
  Forall (AddLienPage.violates parseFloat Date_parse formData) broken ->
  let (errors, valid) := AddLienPage.validateForm parseFloat Date_parse formData in
  (forall c, In c broken -> In (AddLienPage.field_of c) (AddLienPage.keys errors)) /\
  (In AddLienPage.DeadlineAfterPurchase broken ->
   In "redemption_deadline" (AddLienPage.keys errors)) /\
  valid = false /\
  forall env now w,
    AddLienPage.handleSubmit parseFloat Date_parse env now formData w
    = (AddLienPage.Rejected errors, w).
Proof.
  intros Hempty Hamount Hrate Hnonempty Hbroken.
  assert (Hlisted : forall c, In c broken ->
            In (AddLienPage.field_of c)
               (AddLienPage.keys
                  (fst (AddLienPage.validateForm parseFloat Date_parse formData)))).
  { intros c Hc. apply violation_listed; try assumption.
    rewrite Forall_forall in Hbroken. apply Hbroken.
    apply list_elem_of_In. exact Hc. }
  assert (Hvalid : snd (AddLienPage.validateForm parseFloat Date_parse formData) = false).
  { destruct broken as [|c rest]; [contradiction|].
    specialize (Hlisted c (or_introl eq_refl)).
    unfold AddLienPage.validateForm in *. cbn [fst snd] in *.
    destruct (AddLienPage.keys _); [contradiction | reflexivity]. }
  unfold AddLienPage.handleSubmit.
  destruct (AddLienPage.validateForm parseFloat Date_parse formData)
    as [errors valid] eqn:Hv.
  cbn [fst snd] in *. subst valid.
  split; [exact Hlisted|]. split; [apply (Hlisted AddLienPage.DeadlineAfterPurchase)|].
  split; reflexivity.
Qed.

(** A form that breaks four constraints at once. *)
Lemma validateForm_lists_every_violation_witness :
  let broken := [AddLienPage.PrincipalPositive; AddLienPage.RateInRange;
                 AddLienPage.DeadlineAfterPurchase;
                 AddLienPage.FieldPresent "county"] in
  let (errors, valid) :=
    AddLienPage.validateForm AddLienPage.parseFloat_decimal iso_date
      AddLienPage.bad_form in
  (forall c, In c broken -> In (AddLienPage.field_of c) (AddLienPage.keys errors)) /\
  (In AddLienPage.DeadlineAfterPurchase broken ->
   In "redemption_deadline" (AddLienPage.keys errors)) /\
  valid = false /\
  forall env now w,
    AddLienPage.handleSubmit AddLienPage.parseFloat_decimal iso_date env now
      AddLienPage.bad_form w
    = (AddLienPage.Rejected errors, w).
Proof.
  cbv zeta.
  apply (validateForm_lists_every_violation AddLienPage.parseFloat_decimal iso_date
           AddLienPage.bad_form).
  - reflexivity.
  - right. vm_compute. reflexivity.
  - right. vm_compute. reflexivity.
  - discriminate.
  - repeat apply Forall_cons_2; try apply Forall_nil_2.
    + vm_compute. reflexivity.
    + vm_compute. reflexivity.
    + exists 1715731200000, 1715731200000.
      split; [reflexivity|]. split; [reflexivity | lia].
    + reflexivity.
Defined.

(** What the form of the witness is told. *)
Example bad_form_errors :
  AddLienPage.validateForm AddLienPage.parseFloat_decimal iso_date AddLienPage.bad_form
  = ([("purchase_amount", "Purchase amount must be greater than 0");
      ("interest_rate", "Interest rate must be between 0 and 100");
      ("redemption_deadline", "Redemption deadline must be after sale date");
      ("county", "County is required")], false).
Proof. vm_compute. reflexivity. Qed.

(** ** Properties of the deadline cascade *)

Section Cascade.
Import Scheduler.

Lemma THRESHOLDS_NoDup : NoDup THRESHOLDS.
Proof. apply (bool_decide_unpack _). vm_compute. exact I. Qed.

Lemma filter_elem_of {A} (f : A -> bool) (l : list A) (x : A) :
  x ∈ List.filter f l <-> x ∈ l /\ f x = true.
Proof. rewrite !list_elem_of_In. apply filter_In. Qed.

Lemma filter_NoDup {A} (f : A -> bool) (l : list A) :
  NoDup l -> NoDup (List.filter f l).
Proof. rewrite !NoDup_ListNoDup. apply List.NoDup_filter. Qed.

(** *** The notification center *)

Lemma Create_unique (n : Notification) (ns : list Notification) :
  NoDup (map key ns) -> NoDup (map key (Create n ns)).
Proof.
  intros Hns. unfold Create. case_bool_decide as Hin; [exact Hns|].
  rewrite map_app. apply NoDup_app. split; [exact Hns|]. split.
  - intros k Hk Hk'. apply list_elem_of_singleton in Hk'. subst k. contradiction.
  - apply NoDup_singleton.
Qed.

Lemma alerts_unique (today : Z) (d : DeadlineInstance) (fired : list Z)
    (ns : list Notification) :
  NoDup (map key ns) ->
  NoDup (map key (fold_left (fun acc T => Create (alert today d T) acc) fired ns)).
Proof.
  revert ns. induction fired as [|T fired IH]; intros ns Hns; cbn; [exact Hns|].
  apply IH, Create_unique, Hns.
Qed.

Lemma filter_key_absent (k : option string * option Z * string)
    (ns : list Notification) :
  k ∉ map key ns ->
  List.filter (fun n => bool_decide (key n = k)) ns = [].
Proof.
  induction ns as [|n ns IH]; cbn; [reflexivity|].
  intros Hk. apply not_elem_of_cons in Hk as [Hne Hk].
  rewrite bool_decide_eq_false_2 by congruence. apply IH, Hk.
Qed.

Lemma unique_at_most_one (k : option string * option Z * string)
    (ns : list Notification) :
  NoDup (map key ns) ->
  (length (List.filter (fun n => bool_decide (key n = k)) ns) <= 1)%nat.
Proof.
  induction ns as [|n ns IH]; cbn; [lia|].
  intros [Hn Hns]%NoDup_cons. case_bool_decide as Hk.
  - subst k. rewrite filter_key_absent by exact Hn. cbn. lia.
  - apply IH, Hns.
Qed.

(** *** One instance *)

Lemma sweep_instance_spec (today : Z) (st st' : gmap string LienStatus)
    (ns ns' : list Notification) (d d' : DeadlineInstance) (fired : list Z) :
  sweep_instance today st ns d = (st', ns', d', fired) ->
  d_id d' = d_id d /\
  NoDup fired /\
  (forall T, T ∈ fired -> T ∉ fired_thresholds d) /\
  (forall T, T ∈ fired_thresholds d' <-> T ∈ fired_thresholds d \/ T ∈ fired) /\
  (NoDup (map key ns) -> NoDup (map key ns')).
Proof.
  unfold sweep_instance.
  pose proof (filter_NoDup (fires today d) THRESHOLDS THRESHOLDS_NoDup) as Hnodup.
  assert (Hfires : forall T, T ∈ List.filter (fires today d) THRESHOLDS ->
                             T ∉ fired_thresholds d).
  { intros T [_ Hf]%filter_elem_of. unfold fires in Hf.
    apply andb_prop in Hf as [_ Hf]. apply negb_true_iff in Hf.
    apply bool_decide_eq_false in Hf. exact Hf. }
  revert Hnodup Hfires.
  generalize (List.filter (fires today d) THRESHOLDS). intros now_fired Hnodup Hfires.
  destruct (bool_decide _ && bool_decide _); intros [= <- <- <- <-];
    cbn [d_id fired_thresholds].
  - split; [reflexivity|]. split; [exact Hnodup|]. split; [exact Hfires|]. split.
    + intros T. rewrite elem_of_union, elem_of_list_to_set. reflexivity.
    + apply alerts_unique.
  - split; [reflexivity|]. split; [apply NoDup_nil_2|].
    split; [intros T HT; inversion HT|]. split; [|auto].
    intros T. split; [auto|]. intros [H|H]; [exact H | inversion H].
Qed.

(** *** One sweep *)

Lemma fired_of_cons (i : string) (d : DeadlineInstance) (ds : list DeadlineInstance) :
  fired_of i (d :: ds)
  = if String.eqb (d_id d) i then fired_thresholds d else fired_of i ds.
Proof. unfold fired_of. cbn. destruct (String.eqb (d_id d) i); reflexivity. Qed.

Lemma fired_of_absent (i : string) (ds : list DeadlineInstance) :
  i ∉ map d_id ds -> fired_of i ds = ∅.
Proof.
  induction ds as [|d ds IH]; [reflexivity|]. cbn.
  intros [Hne Hi]%not_elem_of_cons. rewrite fired_of_cons.
  destruct (String.eqb_spec (d_id d) i); [congruence | auto].
Qed.

Lemma sweep_all_spec (today : Z) (ds : list DeadlineInstance) :
  forall st ns st' ns' ds' events,
    sweep_all today st ns ds = (st', ns', ds', events) ->
    NoDup (map d_id ds) ->
    map d_id ds' = map d_id ds /\
    (NoDup (map key ns) -> NoDup (map key ns')) /\
    NoDup events /\
    (forall i T, (i, T) ∈ events -> i ∈ map d_id ds) /\
    (forall i T, T ∈ fired_of i ds' <-> T ∈ fired_of i ds \/ (i, T) ∈ events) /\
    (forall i T, (i, T) ∈ events -> T ∉ fired_of i ds).
Proof.
  induction ds as [|d ds IH]; intros st ns st' ns' ds' events; cbn.
  - intros [= <- <- <- <-] _. cbn. split; [reflexivity|]. split; [auto|].
    split; [apply NoDup_nil_2|]. split; [intros i T H; inversion H|].
    split; [|intros i T H; inversion H].
    intros i T. split; [auto|]. intros [H|H]; [exact H | inversion H].
  - destruct (sweep_instance today st ns d) as [[[st1 ns1] d1] fired] eqn:Hd.
    destruct (sweep_all today st1 ns1 ds) as [[[st2 ns2] rest'] later] eqn:Hrest.
    intros [= <- <- <- <-] [Hd_fresh Hids]%NoDup_cons.
    destruct (sweep_instance_spec _ _ _ _ _ _ _ _ Hd)
      as (Hid & Hfired & Hnew & Hafter & Hkeys1).
    destruct (IH _ _ _ _ _ _ Hrest Hids)
      as (Hids' & Hkeys2 & Hlater & Hwho & Hafter' & Hnew').
    assert (Hhead : forall i T, (i, T) ∈ map (pair (d_id d)) fired
                                <-> i = d_id d /\ T ∈ fired).
    { intros i T. change (map (pair (d_id d)) fired) with (pair (d_id d) <$> fired).
      rewrite list_elem_of_fmap. split.
      - intros (T' & [= -> ->] & HT). auto.
      - intros [-> HT]. eauto. }
    split; [cbn; congruence|]. split; [auto|]. split; [|split; [|split]].
    + apply NoDup_app. split; [|split; [|exact Hlater]].
      * change (map (pair (d_id d)) fired) with (pair (d_id d) <$> fired).
        apply NoDup_fmap_2; [|exact Hfired]. intros x y [= ->]. reflexivity.
      * intros [i T] [-> _]%Hhead Hin. apply Hwho in Hin. contradiction.
    + intros i T [[-> _]%Hhead|Hin]%elem_of_app; cbn.
      * apply list_elem_of_here.
      * apply list_elem_of_further, (Hwho i T), Hin.
    + intros i T. rewrite !fired_of_cons, Hid, elem_of_app, Hhead.
      destruct (String.eqb_spec (d_id d) i) as [<-|Hne].
      * rewrite Hafter. split; [intros [?|?]; auto|].
        intros [?|[[_ ?]|Hin]]; auto. apply Hwho in Hin. contradiction.
      * rewrite Hafter'. split; [intros [?|?]; auto|].
        intros [?|[[? _]|?]]; auto. congruence.
    + intros i T [[-> HT]%Hhead|Hin]%elem_of_app; rewrite fired_of_cons.
      * rewrite String.eqb_refl. apply Hnew, HT.
      * destruct (String.eqb_spec (d_id d) i) as [<-|Hne]; [|apply Hnew', Hin].
        apply Hwho in Hin. contradiction.
Qed.

(** *** Any number of sweeps *)

Lemma sweeps_spec (days : list Z) :
  forall (s s' : Store) (fired : list (string * Z)),
    sweeps days s = (s', fired) ->
    NoDup (map d_id (deadlines s)) ->
    NoDup (map key (notifications s)) ->
    NoDup (map key (notifications s')) /\
    NoDup fired /\
    (forall i T, (i, T) ∈ fired ->
       (T ∉ fired_of i (deadlines s)) /\ T ∈ fired_of i (deadlines s')) /\
    (forall i T, T ∈ fired_of i (deadlines s) -> T ∈ fired_of i (deadlines s')).
Proof.
  induction days as [|today later IH]; intros s s' fired; cbn.
  - intros [= <- <-] _ Hkeys. split; [exact Hkeys|]. split; [apply NoDup_nil_2|].
    split; [intros i T H; inversion H | auto].
  - unfold sweep.
    destruct (sweep_all today _ _ _) as [[[st ns] ds] e1] eqn:Hsweep.
    destruct (sweeps later _) as [s2 e2] eqn:Hlater.
    intros [= <- <-] Hids Hkeys.
    destruct (sweep_all_spec _ _ _ _ _ _ _ _ Hsweep Hids)
      as (Hids1 & Hkeys1 & He1 & _ & Hafter1 & Hnew1).
    destruct (IH _ _ _ Hlater) as (Hkeys2 & He2 & Hnew2 & Hmono2);
      [cbn; rewrite Hids1; exact Hids | cbn; auto |]. cbn in Hnew2, Hmono2.
    split; [exact Hkeys2|]. split; [|split].
    + apply NoDup_app. split; [exact He1|]. split; [|exact He2].
      intros [i T] Hin1 Hin2. apply Hnew2 in Hin2 as [Hnot _].
      apply Hnot, Hafter1. auto.
    + intros i T [Hin|Hin]%elem_of_app.
      * split; [apply Hnew1, Hin|]. apply Hmono2, Hafter1. auto.
      * apply Hnew2 in Hin as [Hnot Hin]. split; [|exact Hin].
        intros Hold. apply Hnot, Hafter1. auto.
    + intros i T Hold. apply Hmono2, Hafter1. auto.
Qed.

End Cascade.

(** C4. Over any sequence of deadline sweeps, on whatever days (twice on
    the same day included), starting from a store that holds at most one
    notification per (lien, threshold, type) triple, the store still holds at
    most one per triple, and no threshold of a deadline instance fires twice:
    a threshold fires only if it is not yet in the instance's
    [fired_thresholds], and it is in that set from then on. *)
Theorem sweeps_fire_each_threshold_once (days : list Z) (s : Scheduler.Store) :
  NoDup (map Scheduler.d_id (Scheduler.deadlines s)) ->
  NoDup (map Scheduler.key (Scheduler.notifications s)) ->
  let (s', fired) := Scheduler.sweeps days s in
  (forall lien T type,
     (length (Scheduler.notifications_for lien T type s') <= 1)%nat) /\
  NoDup fired /\
  (forall i T, In (i, T) fired ->
     (T ∉ Scheduler.fired_of i (Scheduler.deadlines s)) /\
     T ∈ Scheduler.fired_of i (Scheduler.deadlines s')) /\
  (forall i, Scheduler.fired_of i (Scheduler.deadlines s)
             ⊆ Scheduler.fired_of i (Scheduler.deadlines s')).
Proof.
  intros Hids Hkeys. destruct (Scheduler.sweeps days s) as [s' fired] eqn:Hrun.
  destruct (sweeps_spec days s s' fired Hrun Hids Hkeys)
    as (Hkeys' & Hfired & Hnew & Hmono).
  split; [|split; [exact Hfired|split]].
  - intros lien T type. apply unique_at_most_one, Hkeys'.
  - intros i T Hin. apply Hnew, list_elem_of_In, Hin.
  - intros i T. apply Hmono.
Qed.

(** The empty store of example 2, swept on day 100 and on day 101. *)
Lemma sweeps_fire_each_threshold_once_witness :
  let (s', fired) := Scheduler.sweeps [100; 101] Scheduler.due_in_29_days in
  (forall lien T type,
     (length (Scheduler.notifications_for lien T type s') <= 1)%nat) /\
  NoDup fired /\
  (forall i T, In (i, T) fired ->
     (T ∉ Scheduler.fired_of i (Scheduler.deadlines Scheduler.due_in_29_days)) /\
     T ∈ Scheduler.fired_of i (Scheduler.deadlines s')) /\
  (forall i, Scheduler.fired_of i (Scheduler.deadlines Scheduler.due_in_29_days)
             ⊆ Scheduler.fired_of i (Scheduler.deadlines s')).
Proof.
  apply (sweeps_fire_each_threshold_once [100; 101] Scheduler.due_in_29_days).
  - apply (bool_decide_unpack _). vm_compute. exact I.
  - apply NoDup_nil_2.
Defined.

(** Example 2 of the specification: swept twice on the same day, a deadline
    29 days out yields exactly one notification for the 30-day threshold,
    and the second sweep fires nothing. *)
Example swept_twice_on_the_same_day :
  let once := Scheduler.sweeps [100] Scheduler.due_in_29_days in
  let twice := Scheduler.sweeps [100; 100] Scheduler.due_in_29_days in
  length (Scheduler.notifications_for "lien-001" 30 "deadline_approaching" (fst twice))
    = 1%nat /\
  snd once = [("deadline-lien-001", 90); ("deadline-lien-001", 60);
              ("deadline-lien-001", 30)] /\
  snd twice = snd once /\
  Scheduler.notifications (fst twice) = Scheduler.notifications (fst once).
Proof. cbv zeta. repeat split; vm_compute; reflexivity. Qed.
